(** * Numeric controls of the Xiaomi Miio integration

    A shallow embedding of
    [homeassistant/components/xiaomi_miio/number.py]: the descriptor
    registry [NUMBER_TYPES], the model table [MODEL_TO_FEATURES_MAP],
    the platform entry point [async_setup_entry] and the entity class
    [XiaomiNumberEntity].

    Python exceptions are values of [Result]; the mutable world (the
    [hass] object, the coordinators it shares between entities, the
    device and the state machine) is passed explicitly.  An [await] is
    one atomic step of the model. *)

From Stdlib Require Import ZArith String List.
From Stdlib Require PrimFloat.
From stdpp Require Import gmap strings list fin_maps.

Local Open Scope Z_scope.

(** ** Python values and exceptions *)

(** The objects that a device attribute or a number value can hold.  A
    member of an [Enum] class carries the class name, the member name
    and the member's [.value]. *)
Inductive PyValue : Type :=
  | VNone
  | VBool (b : bool)
  | VInt (z : Z)
  | VFloat (f : PrimFloat.float)
  | VStr (s : string)
  | VEnum (cls member : string) (value : PyValue).

Inductive PyExc : Type :=
  | KeyError (k : string)
  | AttributeError (attribute : string)
  | TypeError.

Inductive Result (A : Type) : Type :=
  | Ok (a : A)
  | Raise (e : PyExc).
Arguments Ok {A} a.
Arguments Raise {A} e.

#[global] Instance Result_ret : MRet Result := fun A a => Ok a.
#[global] Instance Result_bind : MBind Result := fun A B f r =>
  match r with
  | Ok a => f a
  | Raise e => Raise e
  end.

(** [isinstance(value, Enum)] *)
Definition isinstance_Enum (value : PyValue) : bool :=
  match value with
  | VEnum _ _ _ => true
  | _ => false
  end.

(** [d[k]] on a dict with string keys. *)
Definition getitem {V : Type} (d : gmap string V) (k : string) : Result V :=
  match d !! k with
  | Some v => Ok v
  | None => Raise (KeyError k)
  end.

(** [str(x)] inside an f-string, for a [str | None] operand. *)
Definition fstr (x : option string) : string :=
  match x with
  | Some s => s
  | None => "None"
  end.

(** ** Insertion-ordered dicts with integer keys

    [NUMBER_TYPES] is iterated with [.items()], so the order of its
    keys matters.  A dict display evaluates its items left to right: a
    key seen again keeps its first position and takes the later
    value. *)
Fixpoint dict_setitem {V : Type} (k : Z) (v : V) (d : list (Z * V)) : list (Z * V) :=
  match d with
  | [] => [(k, v)]
  | (k', v') :: d' =>
      if Z.eqb k' k then (k', v) :: d' else (k', v') :: dict_setitem k v d'
  end.

Definition dict_display {V : Type} (items : list (Z * V)) : list (Z * V) :=
  fold_left (fun d kv => dict_setitem (fst kv) (snd kv) d) items [].

(** A dict display whose keys are strings, used for lookup only. *)
Definition str_dict_display {V : Type} (items : list (string * V)) : gmap string V :=
  fold_left (fun d kv => <[fst kv := snd kv]> d) items ∅.

(** ** The constants of [const.py]

    [number.py] imports its feature bits, feature masks, model
    identifiers, model families and dict keys from [.const], which is
    a separate module: they are parameters of the development. *)
Class Const : Type := {
  CONF_DEVICE : string;
  CONF_FLOW_TYPE : string;
  CONF_MODEL : string;
  DOMAIN : string;
  FEATURE_FLAGS_AIRFRESH : Z;
  FEATURE_FLAGS_AIRHUMIDIFIER_CA4 : Z;
  FEATURE_FLAGS_AIRHUMIDIFIER_CA_AND_CB : Z;
  FEATURE_FLAGS_AIRPURIFIER_2S : Z;
  FEATURE_FLAGS_AIRPURIFIER_MIIO : Z;
  FEATURE_FLAGS_AIRPURIFIER_MIOT : Z;
  FEATURE_FLAGS_AIRPURIFIER_PRO : Z;
  FEATURE_FLAGS_AIRPURIFIER_PRO_V7 : Z;
  FEATURE_FLAGS_AIRPURIFIER_V1 : Z;
  FEATURE_FLAGS_AIRPURIFIER_V3 : Z;
  FEATURE_SET_FAN_LEVEL : Z;
  FEATURE_SET_FAVORITE_LEVEL : Z;
  FEATURE_SET_MOTOR_SPEED : Z;
  FEATURE_SET_VOLUME : Z;
  KEY_COORDINATOR : string;
  KEY_DEVICE : string;
  MODEL_AIRFRESH_VA2 : string;
  MODEL_AIRHUMIDIFIER_CA1 : string;
  MODEL_AIRHUMIDIFIER_CA4 : string;
  MODEL_AIRHUMIDIFIER_CB1 : string;
  MODEL_AIRPURIFIER_2S : string;
  MODEL_AIRPURIFIER_PRO : string;
  MODEL_AIRPURIFIER_PRO_V7 : string;
  MODEL_AIRPURIFIER_V1 : string;
  MODEL_AIRPURIFIER_V3 : string;
  MODELS_PURIFIER_MIIO : list string;
  MODELS_PURIFIER_MIOT : list string;
}.

Definition ATTR_FAN_LEVEL : string := "fan_level".
Definition ATTR_FAVORITE_LEVEL : string := "favorite_level".
Definition ATTR_MOTOR_SPEED : string := "motor_speed".
Definition ATTR_VOLUME : string := "volume".

(** ** Descriptors *)

(** [XiaomiMiioNumberDescription]: the fields of [NumberEntityDescription]
    that the registry sets, and the five fields the dataclass adds with
    their defaults. *)
Record XiaomiMiioNumberDescription : Type := {
  key : string;
  name : option string;
  icon : option string;
  unit_of_measurement : option string;
  min_value : PyValue;
  max_value : PyValue;
  step : PyValue;
  available_with_device_off : bool;
  method : option string;
}.

(** ** The world *)

(** References to the objects [hass.data] hands out (the device handle
    and the coordinator of an entry). *)
Definition obj_ref : Type := nat.

(** The status object a coordinator caches: its on/off flag and its
    other named attributes. *)
Record DeviceState : Type := {
  is_on : bool;
  attributes : gmap string PyValue;
}.

Record DataUpdateCoordinator : Type := {
  data : DeviceState;
  last_update_success : bool;
}.

(** The setters of the device client that the entity binds. *)
Inductive DeviceMethod : Type :=
  | set_speed
  | set_favorite_level
  | set_fan_level
  | set_volume.

(** One call [_try_command(mask_error, device.func, arg)]. *)
Record DeviceCall : Type := {
  call_mask_error : string;
  call_device : obj_ref;
  call_func : DeviceMethod;
  call_arg : PyValue;
}.

(** [hass]: the [data] dict, the coordinators it refers to (shared by
    all entities of an entry), the commands sent to devices so far, and
    the states written to the state machine so far (the unique id of
    the writing entity and the value it held). *)
Record HomeAssistant : Type := {
  hass_data : gmap string (gmap string (gmap string obj_ref));
  coordinators : obj_ref -> DataUpdateCoordinator;
  device_calls : list DeviceCall;
  state_writes : list (string * PyValue);
}.

(** [config_entry]; its [data] dict is the field [entry_data], and its
    unique identifier is a string. *)
Record ConfigEntry : Type := {
  entry_data : gmap string string;
  entry_id : string;
  title : string;
  unique_id : string;
}.

(** ** The entity *)

Record XiaomiNumberEntity : Type := {
  _name : string;
  _device : obj_ref;
  _entry : ConfigEntry;
  _unique_id : string;
  coordinator : obj_ref;
  _attr_min_value : PyValue;
  _attr_max_value : PyValue;
  _attr_step : PyValue;
  _attr_value : PyValue;
  entity_description : XiaomiMiioNumberDescription;
}.

(** [self._attr_value = value] *)
Definition set_attr_value (self : XiaomiNumberEntity) (value : PyValue) : XiaomiNumberEntity :=
  {| _name := _name self;
     _device := _device self;
     _entry := _entry self;
     _unique_id := _unique_id self;
     coordinator := coordinator self;
     _attr_min_value := _attr_min_value self;
     _attr_max_value := _attr_max_value self;
     _attr_step := _attr_step self;
     _attr_value := value;
     entity_description := entity_description self |}.

(** ** The platform and the device client

    [XiaomiCoordinatedMiioEntity] (of [device.py]) and the platform's
    entity base are outside [number.py].  What the device answers to a
    command and what the base class reports as availability are
    parameters. *)
Class Collaborators : Type := {
  (** whether the device accepts a command, given the commands before it *)
  device_reply : list DeviceCall -> DeviceCall -> bool;
  (** [super().available] *)
  super_available : XiaomiNumberEntity -> HomeAssistant -> bool;
}.

Section Number.
Context `{Const} `{Collaborators}.

(** ** The tables of [number.py] *)

Definition NUMBER_TYPES : list (Z * XiaomiMiioNumberDescription) :=
  dict_display [
    (FEATURE_SET_MOTOR_SPEED,
     {| key := ATTR_MOTOR_SPEED;
        name := Some "Motor Speed";
        icon := Some "mdi:fast-forward-outline";
        unit_of_measurement := Some "rpm";
        min_value := VInt 200;
        max_value := VInt 2000;
        step := VInt 10;
        available_with_device_off := false;
        method := Some "async_set_motor_speed" |});
    (FEATURE_SET_FAVORITE_LEVEL,
     {| key := ATTR_FAVORITE_LEVEL;
        name := Some "Favorite Level";
        icon := Some "mdi:star-cog";
        unit_of_measurement := None;
        min_value := VInt 0;
        max_value := VInt 17;
        step := VInt 1;
        available_with_device_off := true;
        method := Some "async_set_favorite_level" |});
    (FEATURE_SET_FAN_LEVEL,
     {| key := ATTR_FAN_LEVEL;
        name := Some "Fan Level";
        icon := Some "mdi:fan";
        unit_of_measurement := None;
        min_value := VInt 1;
        max_value := VInt 3;
        step := VInt 1;
        available_with_device_off := true;
        method := Some "async_set_fan_level" |});
    (FEATURE_SET_VOLUME,
     {| key := ATTR_VOLUME;
        name := Some "Volume";
        icon := Some "mdi:volume-high";
        unit_of_measurement := None;
        min_value := VInt 0;
        max_value := VInt 100;
        step := VInt 1;
        available_with_device_off := true;
        method := Some "async_set_volume" |})
  ].

Definition MODEL_TO_FEATURES_MAP : gmap string Z :=
  str_dict_display [
    (MODEL_AIRHUMIDIFIER_CA1, FEATURE_FLAGS_AIRHUMIDIFIER_CA_AND_CB);
    (MODEL_AIRHUMIDIFIER_CA4, FEATURE_FLAGS_AIRHUMIDIFIER_CA4);
    (MODEL_AIRHUMIDIFIER_CB1, FEATURE_FLAGS_AIRHUMIDIFIER_CA_AND_CB);
    (MODEL_AIRPURIFIER_2S, FEATURE_FLAGS_AIRPURIFIER_2S);
    (MODEL_AIRPURIFIER_PRO, FEATURE_FLAGS_AIRPURIFIER_PRO);
    (MODEL_AIRPURIFIER_PRO_V7, FEATURE_FLAGS_AIRPURIFIER_PRO_V7);
    (MODEL_AIRPURIFIER_V1, FEATURE_FLAGS_AIRPURIFIER_V1);
    (MODEL_AIRPURIFIER_V3, FEATURE_FLAGS_AIRPURIFIER_V3);
    (MODEL_AIRFRESH_VA2, FEATURE_FLAGS_AIRFRESH)
  ].

(** ** [XiaomiNumberEntity] *)

(** [getattr(state, attribute)] on the status object. *)
Definition getattr_state (state : DeviceState) (attribute : string) : Result PyValue :=
  if String.eqb attribute "is_on" then Ok (VBool (is_on state))
  else match attributes state !! attribute with
       | Some value => Ok value
       | None => Raise (AttributeError attribute)
       end.

(** [value.value] *)
Definition dot_value (value : PyValue) : Result PyValue :=
  match value with
  | VEnum _ _ underlying => Ok underlying
  | _ => Raise (AttributeError "value")
  end.

Definition _extract_value_from_attribute (state : DeviceState) (attribute : string)
  : Result PyValue :=
  value ← getattr_state state attribute;
  if isinstance_Enum value then dot_value value else Ok value.

(** [__init__].  The initialiser of the base class is outside
    [number.py]: it is taken to keep its five arguments. *)
Definition __init__ (hass : HomeAssistant) (name : string) (device : obj_ref)
    (entry : ConfigEntry) (unique_id : string) (coordinator : obj_ref)
    (description : XiaomiMiioNumberDescription) : Result XiaomiNumberEntity :=
  value ← _extract_value_from_attribute
            (data (coordinators hass coordinator)) (key description);
  Ok {| _name := name;
        _device := device;
        _entry := entry;
        _unique_id := unique_id;
        coordinator := coordinator;
        _attr_min_value := min_value description;
        _attr_max_value := max_value description;
        _attr_step := step description;
        _attr_value := value;
        entity_description := description |}.

Definition available (self : XiaomiNumberEntity) (hass : HomeAssistant) : bool :=
  if super_available self hass
     && negb (is_on (data (coordinators hass (coordinator self))))
     && negb (available_with_device_off (entity_description self))
  then false
  else super_available self hass.

(** Modelled from the spec: [self.async_write_ha_state()] belongs to the
    platform's entity base, which is outside [number.py]; it is the
    state-changed notification, recorded here with the entity that
    wrote and the value it mirrors. *)
Definition async_write_ha_state (self : XiaomiNumberEntity) (hass : HomeAssistant)
  : HomeAssistant :=
  {| hass_data := hass_data hass;
     coordinators := coordinators hass;
     device_calls := device_calls hass;
     state_writes := state_writes hass ++ [(_unique_id self, _attr_value self)] |}.

(** Modelled from the spec: [self._try_command(mask_error, func, arg)]
    belongs to [device.py], which is outside [number.py]; it sends the
    command, logs a failure under [mask_error] and returns whether the
    device accepted, without raising. *)
Definition _try_command (self : XiaomiNumberEntity) (mask_error : string)
    (func : DeviceMethod) (arg : PyValue) (hass : HomeAssistant) : bool * HomeAssistant :=
  let call := {| call_mask_error := mask_error;
                 call_device := _device self;
                 call_func := func;
                 call_arg := arg |} in
  (device_reply (device_calls hass) call,
   {| hass_data := hass_data hass;
      coordinators := coordinators hass;
      device_calls := device_calls hass ++ [call];
      state_writes := state_writes hass |}).

Definition async_set_motor_speed (self : XiaomiNumberEntity) (motor_speed : PyValue)
    (hass : HomeAssistant) : bool * HomeAssistant :=
  _try_command self "Setting the target motor speed of the miio device failed."
    set_speed motor_speed hass.

Definition async_set_favorite_level (self : XiaomiNumberEntity) (level : PyValue)
    (hass : HomeAssistant) : bool * HomeAssistant :=
  _try_command self "Setting the favorite level of the miio device failed."
    set_favorite_level level hass.

Definition async_set_fan_level (self : XiaomiNumberEntity) (level : PyValue)
    (hass : HomeAssistant) : bool * HomeAssistant :=
  _try_command self "Setting the favorite level of the miio device failed."
    set_fan_level level hass.

Definition async_set_volume (self : XiaomiNumberEntity) (volume : PyValue)
    (hass : HomeAssistant) : bool * HomeAssistant :=
  _try_command self "Setting the volume of the miio device failed."
    set_volume volume hass.

(** [getattr(self, name)] for the name a descriptor stores in [method]:
    the four setters this class defines.  [None] is not a name, and
    any other name is reported as missing: what the base classes
    define is not a setter of this entity. *)
Definition getattr_method (self : XiaomiNumberEntity) (name : option string)
  : Result (PyValue -> HomeAssistant -> bool * HomeAssistant) :=
  match name with
  | None => Raise TypeError
  | Some n =>
      if String.eqb n "async_set_motor_speed" then Ok (async_set_motor_speed self)
      else if String.eqb n "async_set_favorite_level" then Ok (async_set_favorite_level self)
      else if String.eqb n "async_set_fan_level" then Ok (async_set_fan_level self)
      else if String.eqb n "async_set_volume" then Ok (async_set_volume self)
      else Raise (AttributeError n)
  end.

Definition async_set_value (self : XiaomiNumberEntity) (value : PyValue)
    (hass : HomeAssistant) : Result (XiaomiNumberEntity * HomeAssistant) :=
  method ← getattr_method self (method (entity_description self));
  let (accepted, hass) := (method value hass : bool * HomeAssistant) in
  if accepted then
    let self := set_attr_value self value in
    Ok (self, async_write_ha_state self hass)
  else Ok (self, hass).

Definition _handle_coordinator_update (self : XiaomiNumberEntity) (hass : HomeAssistant)
  : Result (XiaomiNumberEntity * HomeAssistant) :=
  value ← _extract_value_from_attribute
            (data (coordinators hass (coordinator self)))
            (key (entity_description self));
  let self := set_attr_value self value in
  Ok (self, async_write_ha_state self hass).

(** ** [async_setup_entry] *)

(** The [if]/[elif] chain that chooses [features]; [None] is the final
    [else: return]. *)
Definition features_of_model (model : string) : option Z :=
  match MODEL_TO_FEATURES_MAP !! model with
  | Some features => Some features
  | None =>
      if bool_decide (model ∈ MODELS_PURIFIER_MIIO)
      then Some FEATURE_FLAGS_AIRPURIFIER_MIIO
      else if bool_decide (model ∈ MODELS_PURIFIER_MIOT)
      then Some FEATURE_FLAGS_AIRPURIFIER_MIOT
      else None
  end.

(** The [for] loop over [NUMBER_TYPES.items()], appending to [entities]. *)
Fixpoint append_entities (hass : HomeAssistant) (config_entry : ConfigEntry)
    (device : obj_ref) (features : Z)
    (items : list (Z * XiaomiMiioNumberDescription))
    (entities : list XiaomiNumberEntity) : Result (list XiaomiNumberEntity) :=
  match items with
  | [] => Ok entities
  | (feature, description) :: items =>
      if Z.eqb (Z.land feature features) 0
      then append_entities hass config_entry device features items entities
      else
        domain ← getitem (hass_data hass) DOMAIN;
        store ← getitem domain (entry_id config_entry);
        coordinator ← getitem store KEY_COORDINATOR;
        entity ← __init__ hass
                   (title config_entry +:+ " " +:+ fstr (name description))
                   device config_entry
                   (key description +:+ "_" +:+ unique_id config_entry)
                   coordinator description;
        append_entities hass config_entry device features items (entities ++ [entity])
  end.

(** The result lists the calls of [async_add_entities], each with the
    entities it was given: no call when the function returns early. *)
Definition async_setup_entry (hass : HomeAssistant) (config_entry : ConfigEntry)
  : Result (list (list XiaomiNumberEntity)) :=
  flow_type ← getitem (entry_data config_entry) CONF_FLOW_TYPE;
  if negb (String.eqb flow_type CONF_DEVICE) then Ok []
  else
    model ← getitem (entry_data config_entry) CONF_MODEL;
    domain ← getitem (hass_data hass) DOMAIN;
    store ← getitem domain (entry_id config_entry);
    device ← getitem store KEY_DEVICE;
    match features_of_model model with
    | None => Ok []
    | Some features =>
        entities ← append_entities hass config_entry device features NUMBER_TYPES [];
        Ok [entities]
    end.

(** ** Vocabulary of the statements *)

(** The controls a run of [async_setup_entry] hands to the platform. *)
Definition controls_of (outcome : Result (list (list XiaomiNumberEntity)))
  : list XiaomiNumberEntity :=
  match outcome with
  | Ok calls => concat calls
  | Raise _ => []
  end.

(** [feature & features] is truthy. *)
Definition selected (features : Z) (item : Z * XiaomiMiioNumberDescription) : bool :=
  negb (Z.eqb (Z.land (fst item) features) 0).

(** [hass.data[DOMAIN][config_entry.entry_id][k]] is [ref]. *)
Definition stored (hass : HomeAssistant) (config_entry : ConfigEntry)
    (k : string) (ref : obj_ref) : Prop :=
  exists domain store,
    hass_data hass !! DOMAIN = Some domain
    /\ domain !! entry_id config_entry = Some store
    /\ store !! k = Some ref.

(** The entry is a device entry for [model], and [hass.data] holds its
    device handle and its coordinator. *)
Definition entry_ready (hass : HomeAssistant) (config_entry : ConfigEntry)
    (model : string) (device coordinator : obj_ref) : Prop :=
  entry_data config_entry !! CONF_FLOW_TYPE = Some CONF_DEVICE
  /\ entry_data config_entry !! CONF_MODEL = Some model
  /\ stored hass config_entry KEY_DEVICE device
  /\ stored hass config_entry KEY_COORDINATOR coordinator.

(** The status object of [coordinator] has the attribute that
    [description] names. *)
Definition readable (hass : HomeAssistant) (coordinator : obj_ref)
    (description : XiaomiMiioNumberDescription) : Prop :=
  exists value,
    _extract_value_from_attribute
      (data (coordinators hass coordinator)) (key description) = Ok value.

(** The value [__init__] mirrors for [description] when the attribute
    is there. *)
Definition mirrored (hass : HomeAssistant) (coordinator : obj_ref)
    (description : XiaomiMiioNumberDescription) : PyValue :=
  match _extract_value_from_attribute
          (data (coordinators hass coordinator)) (key description) with
  | Ok value => value
  | Raise _ => VNone
  end.

(** The control [async_setup_entry] builds for [description] once the
    attribute has been read as [value]. *)
Definition control (config_entry : ConfigEntry) (device coordinator : obj_ref)
    (description : XiaomiMiioNumberDescription) (value : PyValue) : XiaomiNumberEntity :=
  {| _name := title config_entry +:+ " " +:+ fstr (name description);
     _device := device;
     _entry := config_entry;
     _unique_id := key description +:+ "_" +:+ unique_id config_entry;
     coordinator := coordinator;
     _attr_min_value := min_value description;
     _attr_max_value := max_value description;
     _attr_step := step description;
     _attr_value := value;
     entity_description := description |}.

(** [hass] after one more command and after one more state write. *)
Definition with_call (hass : HomeAssistant) (call : DeviceCall) : HomeAssistant :=
  {| hass_data := hass_data hass;
     coordinators := coordinators hass;
     device_calls := device_calls hass ++ [call];
     state_writes := state_writes hass |}.

Definition with_write (hass : HomeAssistant) (unique_id : string) (value : PyValue)
  : HomeAssistant :=
  {| hass_data := hass_data hass;
     coordinators := coordinators hass;
     device_calls := device_calls hass;
     state_writes := state_writes hass ++ [(unique_id, value)] |}.

(** [e] is the control that the loop of [async_setup_entry] builds for
    [item]: the coordinator comes from [hass.data] and the mirrored
    value from the coordinator's status. *)
Definition built (hass : HomeAssistant) (config_entry : ConfigEntry) (device : obj_ref)
    (item : Z * XiaomiMiioNumberDescription) (e : XiaomiNumberEntity) : Prop :=
  exists coordinator value,
    stored hass config_entry KEY_COORDINATOR coordinator
    /\ _extract_value_from_attribute
         (data (coordinators hass coordinator)) (key (snd item)) = Ok value
    /\ e = control config_entry device coordinator (snd item) value.

(** [self'] is [self] up to the mirrored value. *)
Definition same_identity (self self' : XiaomiNumberEntity) : Prop :=
  _name self' = _name self
  /\ _device self' = _device self
  /\ _entry self' = _entry self
  /\ _unique_id self' = _unique_id self
  /\ coordinator self' = coordinator self
  /\ _attr_min_value self' = _attr_min_value self
  /\ _attr_max_value self' = _attr_max_value self
  /\ _attr_step self' = _attr_step self
  /\ entity_description self' = entity_description self.

(** The items of the dict display [MODEL_TO_FEATURES_MAP], as written. *)
Definition MODEL_TO_FEATURES_items : list (string * Z) :=
  [ (MODEL_AIRHUMIDIFIER_CA1, FEATURE_FLAGS_AIRHUMIDIFIER_CA_AND_CB);
    (MODEL_AIRHUMIDIFIER_CA4, FEATURE_FLAGS_AIRHUMIDIFIER_CA4);
    (MODEL_AIRHUMIDIFIER_CB1, FEATURE_FLAGS_AIRHUMIDIFIER_CA_AND_CB);
    (MODEL_AIRPURIFIER_2S, FEATURE_FLAGS_AIRPURIFIER_2S);
    (MODEL_AIRPURIFIER_PRO, FEATURE_FLAGS_AIRPURIFIER_PRO);
    (MODEL_AIRPURIFIER_PRO_V7, FEATURE_FLAGS_AIRPURIFIER_PRO_V7);
    (MODEL_AIRPURIFIER_V1, FEATURE_FLAGS_AIRPURIFIER_V1);
    (MODEL_AIRPURIFIER_V3, FEATURE_FLAGS_AIRPURIFIER_V3);
    (MODEL_AIRFRESH_VA2, FEATURE_FLAGS_AIRFRESH) ].

End Number.

(** ** A concrete configuration

    Values for the constants of [const.py], a device that refuses
    negative arguments, and a base class that reports the coordinator's
    last update, to run the model on. *)
Module Sample.

#[export] Instance const : Const := {|
  CONF_DEVICE := "device";
  CONF_FLOW_TYPE := "config_flow_device";
  CONF_MODEL := "model";
  DOMAIN := "xiaomi_miio";
  FEATURE_FLAGS_AIRFRESH := 783;
  FEATURE_FLAGS_AIRHUMIDIFIER_CA4 := 27661;
  FEATURE_FLAGS_AIRHUMIDIFIER_CA_AND_CB := 3085;
  FEATURE_FLAGS_AIRPURIFIER_2S := 23;
  FEATURE_FLAGS_AIRPURIFIER_MIIO := 855;
  FEATURE_FLAGS_AIRPURIFIER_MIOT := 4125;
  FEATURE_FLAGS_AIRPURIFIER_PRO := 182;
  FEATURE_FLAGS_AIRPURIFIER_PRO_V7 := 150;
  FEATURE_FLAGS_AIRPURIFIER_V1 := 7;
  FEATURE_FLAGS_AIRPURIFIER_V3 := 7;
  FEATURE_SET_FAN_LEVEL := 4096;
  FEATURE_SET_FAVORITE_LEVEL := 16;
  FEATURE_SET_MOTOR_SPEED := 8192;
  FEATURE_SET_VOLUME := 128;
  KEY_COORDINATOR := "coordinator";
  KEY_DEVICE := "device";
  MODEL_AIRFRESH_VA2 := "zhimi.airfresh.va2";
  MODEL_AIRHUMIDIFIER_CA1 := "zhimi.humidifier.ca1";
  MODEL_AIRHUMIDIFIER_CA4 := "zhimi.humidifier.ca4";
  MODEL_AIRHUMIDIFIER_CB1 := "zhimi.humidifier.cb1";
  MODEL_AIRPURIFIER_2S := "zhimi.airpurifier.mc1";
  MODEL_AIRPURIFIER_PRO := "zhimi.airpurifier.v6";
  MODEL_AIRPURIFIER_PRO_V7 := "zhimi.airpurifier.v7";
  MODEL_AIRPURIFIER_V1 := "zhimi.airpurifier.v1";
  MODEL_AIRPURIFIER_V3 := "zhimi.airpurifier.v3";
  MODELS_PURIFIER_MIIO :=
    ["zhimi.airpurifier.v1"; "zhimi.airpurifier.v2"; "zhimi.airpurifier.v3";
     "zhimi.airpurifier.v6"; "zhimi.airpurifier.v7"; "zhimi.airpurifier.m1";
     "zhimi.airpurifier.mc1"];
  MODELS_PURIFIER_MIOT :=
    ["zhimi.airpurifier.ma4"; "zhimi.airpurifier.mb3"; "zhimi.airpurifier.va1"];
|}.

#[export] Instance collaborators : Collaborators := {|
  device_reply := fun _ call =>
    match call_arg call with
    | VInt z => Z.leb 0 z
    | _ => false
    end;
  super_available := fun self hass =>
    last_update_success (coordinators hass (coordinator self));
|}.

(** The status of a purifier that is switched off. *)
Definition status : DeviceState :=
  {| is_on := false;
     attributes :=
       <["motor_speed" := VInt 400]>
       (<["favorite_level" := VInt 10]>
       (<["fan_level" := VEnum "FanLevel" "Two" (VInt 2)]>
       (<["volume" := VInt 50]> ∅))) |}.

Definition hass : HomeAssistant :=
  {| hass_data :=
       {[ "xiaomi_miio" :=
            {[ "entry-1" := <["device" := 1%nat]> {[ "coordinator" := 2%nat ]};
               "entry-2" := <["device" := 3%nat]> {[ "coordinator" := 4%nat ]} ]} ]};
     coordinators := fun _ => {| data := status; last_update_success := true |};
     device_calls := [];
     state_writes := [] |}.

Definition entry (id model flow_type unique_id : string) : ConfigEntry :=
  {| entry_data := <["config_flow_device" := flow_type]> {[ "model" := model ]};
     entry_id := id;
     title := "Bedroom";
     unique_id := unique_id |}.

(** Three device entries and one gateway entry. *)
Definition purifier_2s : ConfigEntry :=
  entry "entry-1" "zhimi.airpurifier.mc1" "device" "aa:bb".
Definition purifier_3 : ConfigEntry :=
  entry "entry-2" "zhimi.airpurifier.ma4" "device" "cc:dd".
Definition humidifier : ConfigEntry :=
  entry "entry-1" "zhimi.humidifier.ca4" "device" "aa:bb".
Definition unknown : ConfigEntry :=
  entry "entry-1" "zhimi.unknown" "device" "aa:bb".
Definition gateway : ConfigEntry :=
  entry "entry-9" "zhimi.airpurifier.mc1" "gateway" "ee:ff".

(** The calls of [async_add_entities] in a run of setup. *)
Definition calls_of (config_entry : ConfigEntry) : list (list XiaomiNumberEntity) :=
  match async_setup_entry hass config_entry with
  | Ok calls => calls
  | Raise _ => []
  end.

(** The favorite-level control of an entry and the motor-speed control
    of the humidifier, as setup builds them. *)
Definition favorite_level (config_entry : ConfigEntry) (device coordinator : obj_ref)
  : XiaomiNumberEntity :=
  control config_entry device coordinator
    {| key := "favorite_level";
       name := Some "Favorite Level";
       icon := Some "mdi:star-cog";
       unit_of_measurement := None;
       min_value := VInt 0;
       max_value := VInt 17;
       step := VInt 1;
       available_with_device_off := true;
       method := Some "async_set_favorite_level" |}
    (VInt 10).

Definition motor_speed : XiaomiNumberEntity :=
  control humidifier 1%nat 2%nat
    {| key := "motor_speed";
       name := Some "Motor Speed";
       icon := Some "mdi:fast-forward-outline";
       unit_of_measurement := Some "rpm";
       min_value := VInt 200;
       max_value := VInt 2000;
       step := VInt 10;
       available_with_device_off := false;
       method := Some "async_set_motor_speed" |}
    (VInt 400).

(** A humidifier whose mask has none of the registry's bits. *)
Definition humidifier_ca1 : ConfigEntry :=
  entry "entry-1" "zhimi.humidifier.ca1" "device" "aa:bb".

(** [hass] with a device handle but no coordinator for the first
    entry, and [hass] whose coordinators hold a status without
    attributes. *)
Definition hass_no_coordinator : HomeAssistant :=
  {| hass_data := {[ "xiaomi_miio" := {[ "entry-1" := {[ "device" := 1%nat ]} ]} ]};
     coordinators := coordinators hass;
     device_calls := [];
     state_writes := [] |}.

Definition hass_bare_status : HomeAssistant :=
  {| hass_data := hass_data hass;
     coordinators := fun _ =>
       {| data := {| is_on := true; attributes := ∅ |}; last_update_success := true |};
     device_calls := [];
     state_writes := [] |}.

End Sample.

(** ** Tactics that run the model on closed terms *)

Ltac run :=
  lazymatch goal with
  | |- _ <> _ => let E := fresh "E" in intros E; vm_compute in E; discriminate E
  | |- _ => vm_compute; first [reflexivity | repeat constructor]
  end.

Ltac run_stored :=
  unfold stored; eexists _, _; split; [reflexivity | split; reflexivity].

Ltac run_decide :=
  match goal with
  | |- ~ ?P => apply (bool_decide_eq_false_1 P); run
  | |- ?P => apply (bool_decide_eq_true_1 P); run
  end.

Ltac run_ready :=
  unfold entry_ready; split; [run | split; [run | split; run_stored]].

Ltac run_readable :=
  let item := fresh "item" in
  let Hin := fresh "Hin" in
  let Hselected := fresh "Hselected" in
  intros item Hin Hselected; vm_compute in Hin;
  repeat (apply elem_of_cons in Hin as [->|Hin];
          [first [discriminate Hselected | eexists; run]|]);
  now apply elem_of_nil in Hin.

Ltac run_items :=
  let item := fresh "item" in
  let Hin := fresh "Hin" in
  intros item Hin; vm_compute in Hin;
  repeat (apply elem_of_cons in Hin as [->|Hin]; [reflexivity|]);
  now apply elem_of_nil in Hin.

Ltac run_not_stored :=
  let Hd := fresh "Hd" in
  let Hs := fresh "Hs" in
  let Hk := fresh "Hk" in
  intros ? (? & ? & Hd & Hs & Hk);
  vm_compute in Hd; injection Hd as <-;
  vm_compute in Hs; injection Hs as <-;
  vm_compute in Hk; discriminate Hk.

(** * Properties *)

Section Properties.
Context `{Const} `{Collaborators}.

Implicit Types (hass : HomeAssistant) (config_entry : ConfigEntry).
Implicit Types (self : XiaomiNumberEntity) (description : XiaomiMiioNumberDescription).
Implicit Types (model : string) (features : Z) (value : PyValue).

(** ** The error monad and dict access *)

Lemma bind_Ok {A B : Type} (a : A) (f : A -> Result B) : mbind f (Ok a) = f a.
Proof. reflexivity. Qed.

Lemma bind_Raise {A B : Type} (e : PyExc) (f : A -> Result B) :
  mbind f (Raise e) = Raise e.
Proof. reflexivity. Qed.

Lemma getitem_Some {V : Type} (d : gmap string V) (k : string) (v : V) :
  d !! k = Some v -> getitem d k = Ok v.
Proof. intros Hk. unfold getitem. now rewrite Hk. Qed.

Lemma getitem_None {V : Type} (d : gmap string V) (k : string) :
  d !! k = None -> getitem d k = Raise (KeyError k).
Proof. intros Hk. unfold getitem. now rewrite Hk. Qed.

Lemma controls_of_bind_raise {A : Type} (r : Result A)
    (f : A -> Result (list (list XiaomiNumberEntity))) :
  (forall a, r = Ok a -> controls_of (f a) = []) ->
  controls_of (mbind f r) = [].
Proof. destruct r as [a|e]; intros Hf; [now apply Hf | reflexivity]. Qed.

(** ** Feature resolution *)

Lemma getitem_stored hass config_entry (k : string) (ref : obj_ref)
    {A : Type} (f : obj_ref -> Result A) :
  stored hass config_entry k ref ->
  (domain ← getitem (hass_data hass) DOMAIN;
   store ← getitem domain (entry_id config_entry);
   x ← getitem store k;
   f x) = f ref.
Proof.
  intros (domain & store & Hdomain & Hstore & Hk).
  rewrite (getitem_Some _ _ _ Hdomain), bind_Ok.
  rewrite (getitem_Some _ _ _ Hstore), bind_Ok.
  now rewrite (getitem_Some _ _ _ Hk), bind_Ok.
Qed.

Lemma async_setup_entry_device hass config_entry model device :
  entry_data config_entry !! CONF_FLOW_TYPE = Some CONF_DEVICE ->
  entry_data config_entry !! CONF_MODEL = Some model ->
  stored hass config_entry KEY_DEVICE device ->
  async_setup_entry hass config_entry =
    match features_of_model model with
    | None => Ok []
    | Some features =>
        entities ← append_entities hass config_entry device features NUMBER_TYPES [];
        Ok [entities]
    end.
Proof.
  intros Hflow Hmodel Hdevice.
  unfold async_setup_entry.
  rewrite (getitem_Some _ _ _ Hflow), bind_Ok, String.eqb_refl. cbn [negb].
  rewrite (getitem_Some _ _ _ Hmodel), bind_Ok.
  now rewrite (getitem_stored _ _ _ _ _ Hdevice).
Qed.

Lemma async_setup_entry_ready hass config_entry model device coordinator :
  entry_ready hass config_entry model device coordinator ->
  async_setup_entry hass config_entry =
    match features_of_model model with
    | None => Ok []
    | Some features =>
        entities ← append_entities hass config_entry device features NUMBER_TYPES [];
        Ok [entities]
    end.
Proof.
  intros (Hflow & Hmodel & Hdevice & _).
  now apply async_setup_entry_device.
Qed.

Lemma features_of_model_None model :
  MODEL_TO_FEATURES_MAP !! model = None ->
  model ∉ MODELS_PURIFIER_MIIO ->
  model ∉ MODELS_PURIFIER_MIOT ->
  features_of_model model = None.
Proof.
  intros Hmap Hmiio Hmiot. unfold features_of_model. rewrite Hmap.
  now rewrite !bool_decide_eq_false_2.
Qed.

Lemma unresolved_model_no_controls hass config_entry model :
  features_of_model model = None ->
  entry_data config_entry !! CONF_MODEL = Some model ->
  controls_of (async_setup_entry hass config_entry) = [].
Proof.
  intros Hnone Hmodel. unfold async_setup_entry.
  apply controls_of_bind_raise. intros flow_type _.
  destruct (negb (flow_type =? CONF_DEVICE)%string); [reflexivity|].
  rewrite (getitem_Some _ _ _ Hmodel), bind_Ok.
  apply controls_of_bind_raise. intros domain _.
  apply controls_of_bind_raise. intros store _.
  apply controls_of_bind_raise. intros device _.
  now rewrite Hnone.
Qed.

(** C1: the mask of a model is found by the first match among the
    explicit table, the MIIO family and the MIOT family, in this order;
    a model in the table gets the table's mask whether or not a family
    lists it; a model that matches nothing gets no mask and setup
    creates no control; and a device entry is set up with the mask so
    found. *)
Theorem features_first_match model :
  (forall features,
      MODEL_TO_FEATURES_MAP !! model = Some features ->
      features_of_model model = Some features)
  /\ (MODEL_TO_FEATURES_MAP !! model = None ->
      model ∈ MODELS_PURIFIER_MIIO ->
      features_of_model model = Some FEATURE_FLAGS_AIRPURIFIER_MIIO)
  /\ (MODEL_TO_FEATURES_MAP !! model = None ->
      model ∉ MODELS_PURIFIER_MIIO ->
      model ∈ MODELS_PURIFIER_MIOT ->
      features_of_model model = Some FEATURE_FLAGS_AIRPURIFIER_MIOT)
  /\ (MODEL_TO_FEATURES_MAP !! model = None ->
      model ∉ MODELS_PURIFIER_MIIO ->
      model ∉ MODELS_PURIFIER_MIOT ->
      features_of_model model = None
      /\ forall hass config_entry,
          entry_data config_entry !! CONF_MODEL = Some model ->
          controls_of (async_setup_entry hass config_entry) = [])
  /\ (forall hass config_entry device coordinator features,
      entry_ready hass config_entry model device coordinator ->
      features_of_model model = Some features ->
      async_setup_entry hass config_entry =
        (entities ← append_entities hass config_entry device features NUMBER_TYPES [];
         Ok [entities])).
Proof.
  repeat split.
  - intros features Hmap. unfold features_of_model. now rewrite Hmap.
  - intros Hmap Hmiio. unfold features_of_model. rewrite Hmap.
    now rewrite bool_decide_eq_true_2.
  - intros Hmap Hmiio Hmiot. unfold features_of_model. rewrite Hmap.
    rewrite bool_decide_eq_false_2 by assumption.
    now rewrite bool_decide_eq_true_2.
  - now apply features_of_model_None.
  - intros hass config_entry Hmodel.
    apply unresolved_model_no_controls with model; [|assumption].
    now apply features_of_model_None.
  - intros hass config_entry device coordinator features Hready Hfeatures.
    rewrite (async_setup_entry_ready _ _ _ _ _ Hready). now rewrite Hfeatures.
Qed.

Lemma async_setup_entry_other_flow hass config_entry (flow_type : string) :
  entry_data config_entry !! CONF_FLOW_TYPE = Some flow_type ->
  flow_type <> CONF_DEVICE ->
  async_setup_entry hass config_entry = Ok [].
Proof.
  intros Hflow Hne.
  unfold async_setup_entry. rewrite (getitem_Some _ _ _ Hflow), bind_Ok.
  apply String.eqb_neq in Hne. now rewrite Hne.
Qed.

(** C9: an entry whose flow type is not the device flow type makes
    setup return at once, with no call of [async_add_entities],
    whatever its model and whatever [hass.data] holds. *)
Theorem other_flow_type_returns_early hass config_entry (flow_type : string) :
  entry_data config_entry !! CONF_FLOW_TYPE = Some flow_type ->
  flow_type <> CONF_DEVICE ->
  async_setup_entry hass config_entry = Ok []
  /\ controls_of (async_setup_entry hass config_entry) = [].
Proof.
  intros Hflow Hne.
  now rewrite (async_setup_entry_other_flow _ _ _ Hflow Hne).
Qed.

(** C6: for a model that is in neither the explicit table nor a family
    list, setup returns normally without creating a control and without
    calling [async_add_entities]; the entry has a flow type and this
    model, and [hass.data] holds its device handle, which setup reads
    before it looks at the model. *)
Theorem unknown_model_no_controls_no_error hass config_entry model
    (flow_type : string) device :
  entry_data config_entry !! CONF_FLOW_TYPE = Some flow_type ->
  entry_data config_entry !! CONF_MODEL = Some model ->
  stored hass config_entry KEY_DEVICE device ->
  MODEL_TO_FEATURES_MAP !! model = None ->
  model ∉ MODELS_PURIFIER_MIIO ->
  model ∉ MODELS_PURIFIER_MIOT ->
  async_setup_entry hass config_entry = Ok []
  /\ controls_of (async_setup_entry hass config_entry) = [].
Proof.
  intros Hflow Hmodel Hdevice Hmap Hmiio Hmiot.
  assert (Hrun : async_setup_entry hass config_entry = Ok []).
  { destruct (String.eqb_spec flow_type CONF_DEVICE) as [->|Hne].
    - rewrite (async_setup_entry_device _ _ _ _ Hflow Hmodel Hdevice).
      now rewrite features_of_model_None.
    - now apply (async_setup_entry_other_flow _ _ flow_type). }
  now rewrite Hrun.
Qed.

(** ** The registry *)

Lemma dict_setitem_elem {V : Type} (k : Z) (v : V) (d : list (Z * V)) (item : Z * V) :
  item ∈ dict_setitem k v d -> snd item = v \/ item ∈ d.
Proof.
  induction d as [|[k' v'] d IH]; cbn [dict_setitem].
  - intros Hin. apply list_elem_of_singleton in Hin. subst item. now left.
  - destruct (k' =? k).
    + intros Hin. apply elem_of_cons in Hin as [->|Hin]; [now left|].
      right. now apply list_elem_of_further.
    + intros Hin. apply elem_of_cons in Hin as [->|Hin].
      * right. apply list_elem_of_here.
      * destruct (IH Hin) as [Hv|Hd]; [now left|].
        right. now apply list_elem_of_further.
Qed.

Lemma dict_display_elem {V : Type} (items : list (Z * V)) (item : Z * V) :
  item ∈ dict_display items -> snd item ∈ map snd items.
Proof.
  unfold dict_display.
  assert (Hgen : forall d,
             item ∈ fold_left (fun d kv => dict_setitem (fst kv) (snd kv) d) items d ->
             snd item ∈ map snd items \/ item ∈ d).
  { induction items as [|kv items IH]; intros d; cbn [fold_left map].
    - now right.
    - intros Hin. destruct (IH _ Hin) as [Hitems|Hset].
      + left. now apply list_elem_of_further.
      + destruct (dict_setitem_elem _ _ _ _ Hset) as [->|Hd]; [|now right].
        left. apply list_elem_of_here. }
  intros Hin. destruct (Hgen _ Hin) as [Hitems|Hnil]; [assumption|].
  now apply elem_of_nil in Hnil.
Qed.

(** The key and the setter name of every descriptor of the registry. *)
Lemma NUMBER_TYPES_elem (item : Z * XiaomiMiioNumberDescription) :
  item ∈ NUMBER_TYPES ->
  (key (snd item), method (snd item)) ∈
    [(ATTR_MOTOR_SPEED, Some "async_set_motor_speed");
     (ATTR_FAVORITE_LEVEL, Some "async_set_favorite_level");
     (ATTR_FAN_LEVEL, Some "async_set_fan_level");
     (ATTR_VOLUME, Some "async_set_volume")].
Proof.
  intros Hin. apply dict_display_elem in Hin. cbn [map snd] in Hin.
  repeat (apply elem_of_cons in Hin as [->|Hin]; [set_solver|]).
  now apply elem_of_nil in Hin.
Qed.

Lemma dict_setitem_keys {V : Type} (k : Z) (v : V) (d : list (Z * V)) :
  map fst (dict_setitem k v d) =
    if bool_decide (k ∈ map fst d) then map fst d else map fst d ++ [k].
Proof.
  induction d as [|[k' v'] d IH]; cbn [dict_setitem map fst]; [reflexivity|].
  destruct (Z.eqb_spec k' k) as [->|Hne]; cbn [map fst].
  - rewrite bool_decide_eq_true_2; [reflexivity | apply list_elem_of_here].
  - rewrite IH. destruct (decide (k ∈ map fst d)) as [Hin|Hnin].
    + rewrite (bool_decide_eq_true_2 _ Hin).
      rewrite bool_decide_eq_true_2; [reflexivity|].
      now apply list_elem_of_further.
    + rewrite (bool_decide_eq_false_2 _ Hnin).
      rewrite bool_decide_eq_false_2; [reflexivity|].
      intros Hin. apply elem_of_cons in Hin as [->|Hin]; [now apply Hne | now apply Hnin].
Qed.

Lemma dict_display_NoDup {V : Type} (items : list (Z * V)) :
  NoDup (map fst (dict_display items)).
Proof.
  unfold dict_display.
  assert (Hgen : forall d,
             NoDup (map fst d) ->
             NoDup (map fst (fold_left (fun d kv => dict_setitem (fst kv) (snd kv) d) items d))).
  { induction items as [|kv items IH]; intros d Hd; cbn [fold_left]; [assumption|].
    apply IH. rewrite dict_setitem_keys. case_bool_decide; [assumption|].
    apply NoDup_app. repeat split; [assumption | | apply NoDup_singleton].
    intros x Hx Hk. apply list_elem_of_singleton in Hk. now subst x. }
  apply Hgen. constructor.
Qed.

(** ** Construction of the controls *)

Lemma __init___readable hass (name : string) (device : obj_ref) config_entry
    (unique_id : string) (coordinator : obj_ref) description value :
  _extract_value_from_attribute
    (data (coordinators hass coordinator)) (key description) = Ok value ->
  __init__ hass name device config_entry unique_id coordinator description =
    Ok {| _name := name;
          _device := device;
          _entry := config_entry;
          _unique_id := unique_id;
          coordinator := coordinator;
          _attr_min_value := min_value description;
          _attr_max_value := max_value description;
          _attr_step := step description;
          _attr_value := value;
          entity_description := description |}.
Proof. intros Hvalue. unfold __init__. now rewrite Hvalue. Qed.

Lemma append_entities_ready hass config_entry (device coordinator : obj_ref) features
    (items : list (Z * XiaomiMiioNumberDescription)) (entities : list XiaomiNumberEntity) :
  stored hass config_entry KEY_COORDINATOR coordinator ->
  (forall item, item ∈ items -> selected features item = true ->
                readable hass coordinator (snd item)) ->
  append_entities hass config_entry device features items entities =
    Ok (entities ++
        map (fun item => control config_entry device coordinator (snd item)
                           (mirrored hass coordinator (snd item)))
            (List.filter (selected features) items)).
Proof.
  intros Hstored. pose proof Hstored as (domain & store & Hdomain & Hstore & Hk).
  revert entities.
  induction items as [|[feature description] items IH]; intros entities Hread.
  - cbn. now rewrite app_nil_r.
  - cbn [append_entities List.filter]. unfold selected at 1. cbn [fst].
    destruct (Z.land feature features =? 0) eqn:Hbit; cbn [negb].
    + apply IH. intros item Hin. apply Hread. now apply list_elem_of_further.
    + destruct (Hread (feature, description)) as [value Hvalue].
      { apply list_elem_of_here. }
      { unfold selected. cbn [fst]. now rewrite Hbit. }
      cbn [snd] in Hvalue.
      rewrite (getitem_Some _ _ _ Hdomain), bind_Ok.
      rewrite (getitem_Some _ _ _ Hstore), bind_Ok.
      rewrite (getitem_Some _ _ _ Hk), bind_Ok.
      rewrite (__init___readable _ _ _ _ _ _ _ _ Hvalue), bind_Ok.
      rewrite IH.
      * rewrite <- app_assoc. cbn [map app snd]. unfold mirrored at 2.
        now rewrite Hvalue.
      * intros item Hin. apply Hread. now apply list_elem_of_further.
Qed.

Lemma append_entities_inv hass config_entry (device : obj_ref) features
    (items : list (Z * XiaomiMiioNumberDescription))
    (entities result : list XiaomiNumberEntity) :
  append_entities hass config_entry device features items entities = Ok result ->
  forall e, e ∈ result ->
    e ∈ entities
    \/ exists item coordinator value,
         item ∈ items /\ e = control config_entry device coordinator (snd item) value.
Proof.
  revert entities.
  induction items as [|[feature description] items IH]; intros entities Hrun e He.
  - cbn in Hrun. injection Hrun as <-. now left.
  - cbn [append_entities] in Hrun.
    destruct (Z.land feature features =? 0).
    + destruct (IH _ Hrun e He) as [Hold|(item & c & v & Hin & ->)]; [now left|].
      right. exists item, c, v. split; [now apply list_elem_of_further | reflexivity].
    + destruct (getitem (hass_data hass) DOMAIN) as [domain|]; [|discriminate].
      rewrite bind_Ok in Hrun.
      destruct (getitem domain (entry_id config_entry)) as [store|]; [|discriminate].
      rewrite bind_Ok in Hrun.
      destruct (getitem store KEY_COORDINATOR) as [c|]; [|discriminate].
      rewrite bind_Ok in Hrun. unfold __init__ in Hrun.
      destruct (_extract_value_from_attribute _ _) as [v|]; [|discriminate].
      rewrite !bind_Ok in Hrun.
      destruct (IH _ Hrun e He) as [Hold|(item & c' & v' & Hin & ->)].
      * apply elem_of_app in Hold as [Hold|Hnew]; [now left|].
        apply list_elem_of_singleton in Hnew. right.
        exists (feature, description), c, v. split; [apply list_elem_of_here|].
        now subst e.
      * right. exists item, c', v'.
        split; [now apply list_elem_of_further | reflexivity].
Qed.

(** Every control that setup hands over was built on a descriptor of
    the registry for this entry. *)
Lemma async_setup_entry_inv hass config_entry
    (calls : list (list XiaomiNumberEntity)) (e : XiaomiNumberEntity) :
  async_setup_entry hass config_entry = Ok calls ->
  e ∈ concat calls ->
  exists item device coordinator value,
    item ∈ NUMBER_TYPES
    /\ e = control config_entry device coordinator (snd item) value.
Proof.
  unfold async_setup_entry. intros Hrun He.
  destruct (getitem (entry_data config_entry) CONF_FLOW_TYPE) as [flow_type|];
    [|discriminate].
  rewrite bind_Ok in Hrun.
  destruct (negb (flow_type =? CONF_DEVICE)%string).
  { injection Hrun as <-. now apply elem_of_nil in He. }
  destruct (getitem (entry_data config_entry) CONF_MODEL) as [model|]; [|discriminate].
  rewrite bind_Ok in Hrun.
  destruct (getitem (hass_data hass) DOMAIN) as [domain|]; [|discriminate].
  rewrite bind_Ok in Hrun.
  destruct (getitem domain (entry_id config_entry)) as [store|]; [|discriminate].
  rewrite bind_Ok in Hrun.
  destruct (getitem store KEY_DEVICE) as [device|]; [|discriminate].
  rewrite bind_Ok in Hrun.
  destruct (features_of_model model) as [features|].
  - destruct (append_entities _ _ _ _ _ _) as [entities|] eqn:Hloop; [|discriminate].
    rewrite bind_Ok in Hrun. injection Hrun as <-.
    cbn [concat] in He. rewrite app_nil_r in He.
    destruct (append_entities_inv _ _ _ _ _ _ _ Hloop e He)
      as [Hnil|(item & c & v & Hin & ->)].
    + now apply elem_of_nil in Hnil.
    + now exists item, device, c, v.
  - injection Hrun as <-. now apply elem_of_nil in He.
Qed.

Lemma only_favorite_level_selected features :
  Z.land FEATURE_SET_FAVORITE_LEVEL features <> 0 ->
  Z.land FEATURE_SET_MOTOR_SPEED features = 0 ->
  Z.land FEATURE_SET_FAN_LEVEL features = 0 ->
  Z.land FEATURE_SET_VOLUME features = 0 ->
  exists description,
    map snd (List.filter (selected features) NUMBER_TYPES) = [description]
    /\ key description = "favorite_level"
    /\ min_value description = VInt 0
    /\ max_value description = VInt 17
    /\ step description = VInt 1.
Proof.
  intros Hfav Hmotor Hfan Hvolume.
  assert (Hne1 : (FEATURE_SET_MOTOR_SPEED =? FEATURE_SET_FAVORITE_LEVEL) = false).
  { apply Z.eqb_neq. intros E. rewrite E in Hmotor. contradiction. }
  assert (Hne2 : (FEATURE_SET_FAVORITE_LEVEL =? FEATURE_SET_FAN_LEVEL) = false).
  { apply Z.eqb_neq. intros E. rewrite E in Hfav. contradiction. }
  assert (Hne3 : (FEATURE_SET_FAVORITE_LEVEL =? FEATURE_SET_VOLUME) = false).
  { apply Z.eqb_neq. intros E. rewrite E in Hfav. contradiction. }
  apply Z.eqb_neq in Hfav. apply Z.eqb_eq in Hmotor, Hfan, Hvolume.
  unfold NUMBER_TYPES, dict_display. cbn [fold_left dict_setitem fst snd].
  repeat (match goal with
          | |- context [Z.eqb ?a ?b] => destruct (Z.eqb a b) eqn:?; try congruence
          end; cbn [dict_setitem]);
    cbn [List.filter]; unfold selected; cbn [fst];
    rewrite ?Hfav, ?Hmotor, ?Hfan, ?Hvolume; cbn [negb map snd];
    eexists; repeat split.
Qed.

Lemma entity_description_control config_entry (device coordinator : obj_ref)
    (items : list (Z * XiaomiMiioNumberDescription))
    (value_of : XiaomiMiioNumberDescription -> PyValue) :
  map entity_description
    (map (fun item => control config_entry device coordinator (snd item)
                        (value_of (snd item))) items)
  = map snd items.
Proof. rewrite map_map. now apply map_ext. Qed.

(** C2: once a mask is resolved for a device entry whose selected
    attributes are readable, setup hands over, in registry order, one
    control for each descriptor of the registry whose feature bit is
    set in the mask and none for the others (the registry has each
    feature once); with only the favorite-level bit set there is
    exactly one control, with key [favorite_level], minimum 0, maximum
    17 and step 1. *)
Theorem controls_match_feature_bits hass config_entry model
    (device coordinator : obj_ref) features :
  entry_ready hass config_entry model device coordinator ->
  features_of_model model = Some features ->
  (forall item, item ∈ NUMBER_TYPES -> selected features item = true ->
                readable hass coordinator (snd item)) ->
  async_setup_entry hass config_entry =
    Ok [map (fun item => control config_entry device coordinator (snd item)
                           (mirrored hass coordinator (snd item)))
            (List.filter (selected features) NUMBER_TYPES)]
  /\ map entity_description (controls_of (async_setup_entry hass config_entry))
     = map snd (List.filter (selected features) NUMBER_TYPES)
  /\ NoDup (map fst NUMBER_TYPES)
  /\ (Z.land FEATURE_SET_FAVORITE_LEVEL features <> 0 ->
      Z.land FEATURE_SET_MOTOR_SPEED features = 0 ->
      Z.land FEATURE_SET_FAN_LEVEL features = 0 ->
      Z.land FEATURE_SET_VOLUME features = 0 ->
      exists e,
        controls_of (async_setup_entry hass config_entry) = [e]
        /\ key (entity_description e) = "favorite_level"
        /\ _attr_min_value e = VInt 0
        /\ _attr_max_value e = VInt 17
        /\ _attr_step e = VInt 1).
Proof.
  intros Hready Hfeatures Hread.
  assert (Hrun : async_setup_entry hass config_entry =
                 Ok [map (fun item => control config_entry device coordinator (snd item)
                                        (mirrored hass coordinator (snd item)))
                         (List.filter (selected features) NUMBER_TYPES)]).
  { rewrite (async_setup_entry_ready _ _ _ _ _ Hready), Hfeatures.
    destruct Hready as (_ & _ & _ & Hcoordinator).
    now rewrite (append_entities_ready _ _ _ _ _ _ _ Hcoordinator Hread), bind_Ok. }
  rewrite Hrun. cbn [controls_of concat]. rewrite app_nil_r.
  repeat split.
  - apply (entity_description_control _ _ _ _ (mirrored hass coordinator)).
  - apply dict_display_NoDup.
  - intros Hfav Hmotor Hfan Hvolume.
    destruct (only_favorite_level_selected _ Hfav Hmotor Hfan Hvolume)
      as (description & Hchosen & Hkey & Hmin & Hmax & Hstep).
    destruct (List.filter (selected features) NUMBER_TYPES) as [|item [|]];
      try discriminate.
    injection Hchosen as Hitem. cbn [map]. rewrite Hitem.
    eexists. split; [reflexivity|]. cbn. now repeat split.
Qed.

(** ** Unique identifiers *)

Lemma NUMBER_TYPES_key (item : Z * XiaomiMiioNumberDescription) :
  item ∈ NUMBER_TYPES ->
  key (snd item) ∈ [ATTR_MOTOR_SPEED; ATTR_FAVORITE_LEVEL; ATTR_FAN_LEVEL; ATTR_VOLUME].
Proof.
  intros Hin. apply NUMBER_TYPES_elem in Hin.
  repeat (apply elem_of_cons in Hin as [Hin|Hin];
          [injection Hin as -> _; set_solver|]).
  now apply elem_of_nil in Hin.
Qed.

(** No key of the registry is a prefix of another, so the separator
    can be found again. *)
Lemma unique_id_inj (k1 k2 u1 u2 : string) :
  k1 ∈ [ATTR_MOTOR_SPEED; ATTR_FAVORITE_LEVEL; ATTR_FAN_LEVEL; ATTR_VOLUME] ->
  k2 ∈ [ATTR_MOTOR_SPEED; ATTR_FAVORITE_LEVEL; ATTR_FAN_LEVEL; ATTR_VOLUME] ->
  k1 +:+ "_" +:+ u1 = k2 +:+ "_" +:+ u2 ->
  k1 = k2 /\ u1 = u2.
Proof.
  intros H1 H2.
  repeat (apply elem_of_cons in H1 as [->|H1]);
    try (now apply elem_of_nil in H1);
    repeat (apply elem_of_cons in H2 as [->|H2]);
    try (now apply elem_of_nil in H2);
    unfold ATTR_MOTOR_SPEED, ATTR_FAVORITE_LEVEL, ATTR_FAN_LEVEL, ATTR_VOLUME;
    intros E; simplify_eq; split; reflexivity.
Qed.

(** C8: a control that setup constructs has the unique identifier
    [<descriptor key>_<entry unique id>], and two constructed controls
    (of the same or of different entries) whose pairs of descriptor key
    and entry unique identifier differ have different unique
    identifiers. *)
Theorem unique_ids_do_not_collide
    hass1 config_entry1 (calls1 : list (list XiaomiNumberEntity)) (e1 : XiaomiNumberEntity)
    hass2 config_entry2 (calls2 : list (list XiaomiNumberEntity)) (e2 : XiaomiNumberEntity) :
  async_setup_entry hass1 config_entry1 = Ok calls1 -> e1 ∈ concat calls1 ->
  async_setup_entry hass2 config_entry2 = Ok calls2 -> e2 ∈ concat calls2 ->
  _unique_id e1 = key (entity_description e1) +:+ "_" +:+ unique_id config_entry1
  /\ _unique_id e2 = key (entity_description e2) +:+ "_" +:+ unique_id config_entry2
  /\ ((key (entity_description e1), unique_id config_entry1)
        <> (key (entity_description e2), unique_id config_entry2) ->
      _unique_id e1 <> _unique_id e2).
Proof.
  intros Hrun1 He1 Hrun2 He2.
  destruct (async_setup_entry_inv _ _ _ _ Hrun1 He1) as (item1 & d1 & c1 & v1 & Hin1 & ->).
  destruct (async_setup_entry_inv _ _ _ _ Hrun2 He2) as (item2 & d2 & c2 & v2 & Hin2 & ->).
  cbn [_unique_id entity_description control].
  repeat split. intros Hpairs Hids.
  apply unique_id_inj in Hids as [Hkey Huid]; try now apply NUMBER_TYPES_key.
  apply Hpairs. now rewrite Hkey, Huid.
Qed.

(** ** Reading the mirrored value *)

Lemma _extract_value_from_attribute_Enum (state : DeviceState) (attribute : string)
    (cls member : string) (underlying : PyValue) :
  getattr_state state attribute = Ok (VEnum cls member underlying) ->
  _extract_value_from_attribute state attribute = Ok underlying.
Proof. intros Hget. unfold _extract_value_from_attribute. now rewrite Hget. Qed.

Lemma _extract_value_from_attribute_plain (state : DeviceState) (attribute : string)
    value :
  getattr_state state attribute = Ok value ->
  isinstance_Enum value = false ->
  _extract_value_from_attribute state attribute = Ok value.
Proof.
  intros Hget Hplain. unfold _extract_value_from_attribute.
  rewrite Hget, bind_Ok. now rewrite Hplain.
Qed.

Lemma _handle_coordinator_update_readable self hass value :
  _extract_value_from_attribute
    (data (coordinators hass (coordinator self)))
    (key (entity_description self)) = Ok value ->
  _handle_coordinator_update self hass =
    Ok (set_attr_value self value, with_write hass (_unique_id self) value).
Proof. intros Hvalue. unfold _handle_coordinator_update. now rewrite Hvalue. Qed.

(** C7: the current value is the attribute of the status object that
    the key names; a member of an enumeration is replaced by its
    underlying value and any other value is kept; [__init__] and the
    handler of coordinator updates both mirror the value so read, and
    fail as it fails. *)
Theorem mirrored_value_projection (state : DeviceState) (attribute : string) :
  (forall cls member underlying,
      getattr_state state attribute = Ok (VEnum cls member underlying) ->
      _extract_value_from_attribute state attribute = Ok underlying)
  /\ (forall value,
      getattr_state state attribute = Ok value ->
      isinstance_Enum value = false ->
      _extract_value_from_attribute state attribute = Ok value)
  /\ (forall hass (name : string) (device : obj_ref) config_entry (unique_id : string)
             (coordinator : obj_ref) description,
      data (coordinators hass coordinator) = state ->
      key description = attribute ->
      match _extract_value_from_attribute state attribute with
      | Ok value =>
          exists e,
            __init__ hass name device config_entry unique_id coordinator description
              = Ok e
            /\ _attr_value e = value
      | Raise exc =>
          __init__ hass name device config_entry unique_id coordinator description
            = Raise exc
      end)
  /\ (forall self hass,
      data (coordinators hass (coordinator self)) = state ->
      key (entity_description self) = attribute ->
      match _extract_value_from_attribute state attribute with
      | Ok value =>
          exists self' hass',
            _handle_coordinator_update self hass = Ok (self', hass')
            /\ _attr_value self' = value
      | Raise exc => _handle_coordinator_update self hass = Raise exc
      end).
Proof.
  repeat split.
  - intros cls member underlying. apply _extract_value_from_attribute_Enum.
  - intros value. apply _extract_value_from_attribute_plain.
  - intros hass name device config_entry unique_id coordinator description <- <-.
    destruct (_extract_value_from_attribute _ _) as [value|exc] eqn:Hvalue.
    + rewrite (__init___readable _ _ _ _ _ _ _ _ Hvalue). now eexists.
    + unfold __init__. now rewrite Hvalue.
  - intros self hass <- <-.
    destruct (_extract_value_from_attribute _ _) as [value|exc] eqn:Hvalue.
    + rewrite (_handle_coordinator_update_readable _ _ _ Hvalue). now eexists _, _.
    + unfold _handle_coordinator_update. now rewrite Hvalue.
Qed.

(** ** Availability *)

(** C5: a control is unavailable when the device is off and its
    descriptor does not allow use with the device off; in every other
    case its availability is the one the base class reports. *)
Theorem available_follows_device_power self hass :
  (is_on (data (coordinators hass (coordinator self))) = false ->
   available_with_device_off (entity_description self) = false ->
   available self hass = false)
  /\ (is_on (data (coordinators hass (coordinator self))) = true
      \/ available_with_device_off (entity_description self) = true ->
      available self hass = super_available self hass).
Proof.
  unfold available. split.
  - intros -> ->. now destruct (super_available self hass).
  - intros [-> | ->]; destruct (super_available self hass); cbn;
      try reflexivity.
    now destruct (is_on _).
Qed.

(** ** Setting a value *)

(** The setter that [async_set_value] finds for a control of the
    registry, with the message it logs under. *)
Lemma getattr_method_registry self :
  (exists feature, (feature, entity_description self) ∈ NUMBER_TYPES) ->
  exists (mask_error : string) (func : DeviceMethod),
    getattr_method self (method (entity_description self))
      = Ok (fun arg hass => _try_command self mask_error func arg hass)
    /\ (method (entity_description self) = Some "async_set_motor_speed" ->
        func = set_speed).
Proof.
  intros [feature Hin]. apply NUMBER_TYPES_elem in Hin. cbn [snd] in Hin.
  repeat (apply elem_of_cons in Hin as [Hin|Hin];
          [injection Hin as _ ->; eexists _, _; split;
           [reflexivity | intros; congruence]|]).
  now apply elem_of_nil in Hin.
Qed.

Lemma async_set_value_registry self value hass :
  (exists feature, (feature, entity_description self) ∈ NUMBER_TYPES) ->
  exists call,
    call_device call = _device self
    /\ call_arg call = value
    /\ (method (entity_description self) = Some "async_set_motor_speed" ->
        call_func call = set_speed)
    /\ async_set_value self value hass =
        if device_reply (device_calls hass) call
        then Ok (set_attr_value self value,
                 with_write (with_call hass call) (_unique_id self) value)
        else Ok (self, with_call hass call).
Proof.
  intros Hregistry.
  destruct (getattr_method_registry _ Hregistry) as (mask_error & func & Hget & Hfunc).
  exists {| call_mask_error := mask_error;
            call_device := _device self;
            call_func := func;
            call_arg := value |}.
  repeat split; [assumption|].
  unfold async_set_value. rewrite Hget, bind_Ok. unfold _try_command.
  now destruct (device_reply _ _).
Qed.

(** What [async_set_value] leaves alone. *)
Lemma async_set_value_frame self value hass self' hass' :
  async_set_value self value hass = Ok (self', hass') ->
  coordinator self' = coordinator self
  /\ entity_description self' = entity_description self
  /\ _unique_id self' = _unique_id self
  /\ coordinators hass' = coordinators hass.
Proof.
  unfold async_set_value, getattr_method.
  destruct (method (entity_description self)) as [n|]; [|discriminate].
  repeat match goal with
         | |- context [if String.eqb n ?s then _ else _] => destruct (String.eqb n s)
         end;
    try (intros ?; discriminate);
    rewrite bind_Ok;
    unfold async_set_motor_speed, async_set_favorite_level, async_set_fan_level,
      async_set_volume, _try_command;
    destruct (device_reply _ _); intros [= <- <-]; now repeat split.
Qed.

(** C3: when the setter reports success the control mirrors exactly the
    requested value and writes its state once; when the setter reports
    failure the mirrored value stays as it was and no state is written.
    Either way one command was sent, to the control's device, with the
    requested value. *)
Theorem set_value_mirrors_on_success_only self value hass :
  (exists feature, (feature, entity_description self) ∈ NUMBER_TYPES) ->
  exists call,
    call_device call = _device self
    /\ call_arg call = value
    /\ (device_reply (device_calls hass) call = true ->
        exists self' hass',
          async_set_value self value hass = Ok (self', hass')
          /\ _attr_value self' = value
          /\ state_writes hass' = state_writes hass ++ [(_unique_id self, value)]
          /\ device_calls hass' = device_calls hass ++ [call])
    /\ (device_reply (device_calls hass) call = false ->
        exists hass',
          async_set_value self value hass = Ok (self, hass')
          /\ state_writes hass' = state_writes hass
          /\ device_calls hass' = device_calls hass ++ [call]).
Proof.
  intros Hregistry.
  destruct (async_set_value_registry self value hass Hregistry)
    as (call & Hdevice & Harg & _ & Hrun).
  exists call. repeat split; try assumption.
  - intros Hreply. rewrite Hreply in Hrun.
    eexists _, _. split; [exact Hrun|]. now cbn.
  - intros Hreply. rewrite Hreply in Hrun.
    eexists. split; [exact Hrun|]. now cbn.
Qed.

(** The command that [async_set_value] sends for a control of the
    registry: the setter that the descriptor names, on the control's
    device, with the value. *)
Lemma async_set_value_routed self value hass :
  (exists feature, (feature, entity_description self) ∈ NUMBER_TYPES) ->
  exists call,
    call_device call = _device self
    /\ call_arg call = value
    /\ (key (entity_description self), method (entity_description self),
        call_func call) ∈
         [("motor_speed", Some "async_set_motor_speed", set_speed);
          ("favorite_level", Some "async_set_favorite_level", set_favorite_level);
          ("fan_level", Some "async_set_fan_level", set_fan_level);
          ("volume", Some "async_set_volume", set_volume)]
    /\ async_set_value self value hass =
        if device_reply (device_calls hass) call
        then Ok (set_attr_value self value,
                 with_write (with_call hass call) (_unique_id self) value)
        else Ok (self, with_call hass call).
Proof.
  intros [feature Hin]. apply NUMBER_TYPES_elem in Hin. cbn [snd] in Hin.
  unfold ATTR_MOTOR_SPEED, ATTR_FAVORITE_LEVEL, ATTR_FAN_LEVEL, ATTR_VOLUME in Hin.
  unfold async_set_value.
  repeat (apply elem_of_cons in Hin as [Hin|Hin];
          [injection Hin as Hkey Hmethod; rewrite Hkey, Hmethod;
           cbn [getattr_method String.eqb Ascii.eqb Bool.eqb]; rewrite bind_Ok;
           unfold async_set_motor_speed, async_set_favorite_level,
             async_set_fan_level, async_set_volume, _try_command;
           match goal with |- context [device_reply _ ?c] => exists c end;
           (split; [reflexivity|]); (split; [reflexivity|]);
           split; [cbn [call_func]; set_solver | now destruct (device_reply _ _)]|]).
  now apply elem_of_nil in Hin.
Qed.

(** C10: [async_set_value] compares the value with no bound and no
    step: whatever the value, the setter bound to the descriptor is
    called once, on the control's device, with exactly this value
    ([set_speed] for motor speed, [set_favorite_level] for favorite
    level, [set_fan_level] for fan level, [set_volume] for volume), and
    on success the control mirrors exactly this value. *)
Theorem set_value_forwards_value_unchecked self value hass :
  (exists feature, (feature, entity_description self) ∈ NUMBER_TYPES) ->
  exists call self' hass',
    async_set_value self value hass = Ok (self', hass')
    /\ device_calls hass' = device_calls hass ++ [call]
    /\ call_arg call = value
    /\ call_device call = _device self
    /\ (method (entity_description self) = Some "async_set_motor_speed" ->
        call_func call = set_speed)
    /\ (device_reply (device_calls hass) call = true -> _attr_value self' = value)
    /\ (device_reply (device_calls hass) call = false -> self' = self)
    /\ (key (entity_description self), method (entity_description self),
        call_func call) ∈
         [("motor_speed", Some "async_set_motor_speed", set_speed);
          ("favorite_level", Some "async_set_favorite_level", set_favorite_level);
          ("fan_level", Some "async_set_fan_level", set_fan_level);
          ("volume", Some "async_set_volume", set_volume)].
Proof.
  intros Hregistry.
  destruct (async_set_value_routed self value hass Hregistry)
    as (call & Hdevice & Harg & Hrow & Hrun).
  assert (Hmotor : method (entity_description self) = Some "async_set_motor_speed" ->
                   call_func call = set_speed).
  { intros Hmethod. rewrite Hmethod in Hrow.
    repeat (apply elem_of_cons in Hrow as [Hrow|Hrow];
            [first [discriminate Hrow | now injection Hrow as _ ->]|]).
    now apply elem_of_nil in Hrow. }
  exists call.
  destruct (device_reply (device_calls hass) call);
    eexists _, _; (split; [exact Hrun|]); cbn;
    (split; [reflexivity|]); (split; [assumption|]); (split; [assumption|]);
    (split; [assumption|]);
    (split; [intros Hr; first [reflexivity | discriminate Hr]|]);
    (split; [intros Hr; first [reflexivity | discriminate Hr]|]);
    assumption.
Qed.

(** ** Coordinator updates *)

(** C4: when the coordinator has new data, the control mirrors the
    value read from the coordinator's current status through the
    descriptor's key, whatever it mirrored before, and writes its state
    once; in particular a value set just before is overwritten. *)
Theorem coordinator_update_overwrites self hass value :
  _extract_value_from_attribute
    (data (coordinators hass (coordinator self)))
    (key (entity_description self)) = Ok value ->
  (exists self' hass',
      _handle_coordinator_update self hass = Ok (self', hass')
      /\ _attr_value self' = value
      /\ state_writes hass' = state_writes hass ++ [(_unique_id self, value)]
      /\ device_calls hass' = device_calls hass)
  /\ (forall optimistic self1 hass1,
      async_set_value self optimistic hass = Ok (self1, hass1) ->
      exists self2 hass2,
        _handle_coordinator_update self1 hass1 = Ok (self2, hass2)
        /\ _attr_value self2 = value
        /\ state_writes hass2 = state_writes hass1 ++ [(_unique_id self, value)]).
Proof.
  intros Hvalue. split.
  - rewrite (_handle_coordinator_update_readable _ _ _ Hvalue). now eexists _, _.
  - intros optimistic self1 hass1 Hset.
    destruct (async_set_value_frame _ _ _ _ _ Hset) as (Hc & Hd & Hu & Hcs).
    rewrite <- Hc, <- Hd, <- Hcs in Hvalue.
    rewrite (_handle_coordinator_update_readable _ _ _ Hvalue), Hu.
    now eexists _, _.
Qed.

End Properties.

(** * Further properties of the code *)

Section Further.
Context `{Const} `{Collaborators}.

Implicit Types (hass : HomeAssistant) (config_entry : ConfigEntry).
Implicit Types (self : XiaomiNumberEntity) (description : XiaomiMiioNumberDescription).
Implicit Types (model : string) (features : Z) (value : PyValue).

(** ** Lookups that setup performs *)

Lemma getitem_Ok_inv {V : Type} (d : gmap string V) (k : string) (v : V) :
  getitem d k = Ok v -> d !! k = Some v.
Proof. unfold getitem. destruct (d !! k); [now intros [= ->] | discriminate]. Qed.

Lemma stored_functional hass config_entry (k : string) (ref1 ref2 : obj_ref) :
  stored hass config_entry k ref1 -> stored hass config_entry k ref2 -> ref1 = ref2.
Proof.
  intros (d1 & s1 & Hd1 & Hs1 & Hk1) (d2 & s2 & Hd2 & Hs2 & Hk2).
  congruence.
Qed.

(** X1: setup reads the flow type, then (for a device entry) the model,
    then [hass.data[DOMAIN]], the entry's store and the device handle,
    and the first of these lookups that misses raises [KeyError] with
    the missing key, whether or not the model is a known one. *)
Theorem setup_lookup_errors hass config_entry :
  (entry_data config_entry !! CONF_FLOW_TYPE = None ->
   async_setup_entry hass config_entry = Raise (KeyError CONF_FLOW_TYPE))
  /\ (entry_data config_entry !! CONF_FLOW_TYPE = Some CONF_DEVICE ->
      entry_data config_entry !! CONF_MODEL = None ->
      async_setup_entry hass config_entry = Raise (KeyError CONF_MODEL))
  /\ (forall model,
      entry_data config_entry !! CONF_FLOW_TYPE = Some CONF_DEVICE ->
      entry_data config_entry !! CONF_MODEL = Some model ->
      (hass_data hass !! DOMAIN = None ->
       async_setup_entry hass config_entry = Raise (KeyError DOMAIN))
      /\ (forall domain,
          hass_data hass !! DOMAIN = Some domain ->
          (domain !! entry_id config_entry = None ->
           async_setup_entry hass config_entry
             = Raise (KeyError (entry_id config_entry)))
          /\ (forall store,
              domain !! entry_id config_entry = Some store ->
              store !! KEY_DEVICE = None ->
              async_setup_entry hass config_entry = Raise (KeyError KEY_DEVICE)))).
Proof.
  unfold async_setup_entry. split; [|split].
  - intros Hflow. now rewrite (getitem_None _ _ Hflow).
  - intros Hflow Hmodel.
    rewrite (getitem_Some _ _ _ Hflow), bind_Ok, String.eqb_refl. cbn [negb].
    now rewrite (getitem_None _ _ Hmodel).
  - intros model Hflow Hmodel.
    rewrite (getitem_Some _ _ _ Hflow), bind_Ok, String.eqb_refl. cbn [negb].
    rewrite (getitem_Some _ _ _ Hmodel), bind_Ok. split.
    + intros Hdomain. now rewrite (getitem_None _ _ Hdomain).
    + intros domain Hdomain. rewrite (getitem_Some _ _ _ Hdomain), bind_Ok. split.
      * intros Hstore. now rewrite (getitem_None _ _ Hstore).
      * intros store Hstore Hdevice.
        rewrite (getitem_Some _ _ _ Hstore), bind_Ok.
        now rewrite (getitem_None _ _ Hdevice).
Qed.

(** ** The explicit table *)

Lemma str_dict_display_fold_notin {V : Type} (items : list (string * V))
    (d : gmap string V) (k : string) :
  k ∉ map fst items ->
  fold_left (fun d kv => <[fst kv := snd kv]> d) items d !! k = d !! k.
Proof.
  revert d. induction items as [|[k' v'] items IH]; intros d Hk; cbn [fold_left map fst snd] in *.
  - reflexivity.
  - apply not_elem_of_cons in Hk as [Hne Hk].
    rewrite (IH _ Hk). now apply lookup_insert_ne.
Qed.

Lemma str_dict_display_fold_in {V : Type} (items : list (string * V))
    (d : gmap string V) (k : string) :
  k ∈ map fst items \/ is_Some (d !! k) ->
  is_Some (fold_left (fun d kv => <[fst kv := snd kv]> d) items d !! k).
Proof.
  revert d. induction items as [|[k' v'] items IH]; intros d Hk; cbn [fold_left map fst snd] in *.
  - destruct Hk as [Hk|Hk]; [now apply elem_of_nil in Hk | assumption].
  - apply IH. destruct Hk as [Hk|Hk].
    + apply elem_of_cons in Hk as [->|Hk]; [right | now left].
      rewrite lookup_insert_eq. now eexists.
    + right. destruct (decide (k' = k)) as [->|Hne].
      * rewrite lookup_insert_eq. now eexists.
      * now rewrite lookup_insert_ne.
Qed.

Lemma str_dict_display_None {V : Type} (items : list (string * V)) (k : string) :
  str_dict_display items !! k = None <-> k ∉ map fst items.
Proof.
  unfold str_dict_display. split.
  - intros Hnone Hin.
    destruct (str_dict_display_fold_in items ∅ k (or_introl Hin)) as [v Hv].
    congruence.
  - intros Hk. rewrite (str_dict_display_fold_notin _ _ _ Hk). apply lookup_empty.
Qed.

Lemma str_dict_display_NoDup {V : Type} (items : list (string * V)) (k : string) (v : V) :
  NoDup (map fst items) ->
  (k, v) ∈ items ->
  str_dict_display items !! k = Some v.
Proof.
  unfold str_dict_display. generalize (∅ : gmap string V).
  induction items as [|[k' v'] items IH]; intros d Hnodup Hin; cbn [fold_left map fst snd] in *.
  - now apply elem_of_nil in Hin.
  - apply NoDup_cons in Hnodup as [Hfresh Hnodup].
    apply elem_of_cons in Hin as [[= -> ->]|Hin].
    + rewrite (str_dict_display_fold_notin _ _ _ Hfresh). apply lookup_insert_eq.
    + now apply IH.
Qed.

(** X2: when the nine model identifiers of the explicit table are
    pairwise distinct, each of them resolves to the mask written beside
    it in the table, whether or not a family list also has it. *)
Theorem table_models_resolve model features :
  NoDup (map fst MODEL_TO_FEATURES_items) ->
  (model, features) ∈ MODEL_TO_FEATURES_items ->
  features_of_model model = Some features.
Proof.
  intros Hnodup Hin. unfold features_of_model.
  change MODEL_TO_FEATURES_MAP with (str_dict_display MODEL_TO_FEATURES_items).
  now rewrite (str_dict_display_NoDup _ _ _ Hnodup Hin).
Qed.

(** X3: a model gets no feature mask, so that setup creates nothing for
    it, exactly when it is none of the nine models of the explicit
    table and is in neither family list. *)
Theorem unresolved_models model :
  features_of_model model = None
  <-> ((model ∉ map fst MODEL_TO_FEATURES_items)
       /\ (model ∉ MODELS_PURIFIER_MIIO)
       /\ (model ∉ MODELS_PURIFIER_MIOT)).
Proof.
  unfold features_of_model.
  change MODEL_TO_FEATURES_MAP with (str_dict_display MODEL_TO_FEATURES_items).
  split.
  - destruct (str_dict_display _ !! model) eqn:Hmap; [discriminate|].
    apply str_dict_display_None in Hmap.
    repeat case_bool_decide; try discriminate. now intros _.
  - intros (Hmap & Hmiio & Hmiot).
    apply str_dict_display_None in Hmap. rewrite Hmap.
    now rewrite !bool_decide_eq_false_2.
Qed.

(** ** The loop over the registry *)

Lemma append_entities_none_selected hass config_entry (device : obj_ref) features
    (items : list (Z * XiaomiMiioNumberDescription)) (entities : list XiaomiNumberEntity) :
  (forall item, item ∈ items -> Z.land (fst item) features = 0) ->
  append_entities hass config_entry device features items entities = Ok entities.
Proof.
  induction items as [|[feature description] items IH]; intros Hnone; [reflexivity|].
  cbn [append_entities].
  pose proof (Hnone (feature, description) (list_elem_of_here _ _)) as Hbit.
  cbn [fst] in Hbit. apply Z.eqb_eq in Hbit. rewrite Hbit.
  apply IH. intros item Hin. apply Hnone. now apply list_elem_of_further.
Qed.

(** X4: when the resolved mask has none of the registry's feature bits,
    setup calls [async_add_entities] once with an empty list (unlike
    the early returns, which do not call it), and does not need a
    coordinator in [hass.data]. *)
Theorem setup_no_feature_selected hass config_entry model (device : obj_ref) features :
  entry_data config_entry !! CONF_FLOW_TYPE = Some CONF_DEVICE ->
  entry_data config_entry !! CONF_MODEL = Some model ->
  stored hass config_entry KEY_DEVICE device ->
  features_of_model model = Some features ->
  (forall item, item ∈ NUMBER_TYPES -> Z.land (fst item) features = 0) ->
  async_setup_entry hass config_entry = Ok [[]].
Proof.
  intros Hflow Hmodel Hdevice Hfeatures Hnone.
  rewrite (async_setup_entry_device _ _ _ _ Hflow Hmodel Hdevice), Hfeatures.
  now rewrite (append_entities_none_selected _ _ _ _ _ _ Hnone).
Qed.

Lemma append_entities_no_coordinator hass config_entry (device : obj_ref) features
    (items : list (Z * XiaomiMiioNumberDescription)) (entities : list XiaomiNumberEntity)
    (domain : gmap string (gmap string obj_ref)) (store : gmap string obj_ref) :
  hass_data hass !! DOMAIN = Some domain ->
  domain !! entry_id config_entry = Some store ->
  store !! KEY_COORDINATOR = None ->
  (exists item, item ∈ items /\ selected features item = true) ->
  append_entities hass config_entry device features items entities
    = Raise (KeyError KEY_COORDINATOR).
Proof.
  intros Hdomain Hstore Hk. revert entities.
  induction items as [|[feature description] items IH]; intros entities (item & Hin & Hsel).
  - now apply elem_of_nil in Hin.
  - cbn [append_entities].
    destruct (Z.land feature features =? 0) eqn:Hbit.
    + apply IH. exists item. split; [|assumption].
      apply elem_of_cons in Hin as [->|Hin]; [|assumption].
      unfold selected in Hsel. cbn [fst] in Hsel. now rewrite Hbit in Hsel.
    + rewrite (getitem_Some _ _ _ Hdomain), bind_Ok.
      rewrite (getitem_Some _ _ _ Hstore), bind_Ok.
      now rewrite (getitem_None _ _ Hk).
Qed.

(** X5: when the mask selects a descriptor of the registry but
    [hass.data] holds no coordinator for the entry, setup raises
    [KeyError] for the coordinator key and hands nothing over. *)
Theorem setup_missing_coordinator hass config_entry model (device : obj_ref) features :
  entry_data config_entry !! CONF_FLOW_TYPE = Some CONF_DEVICE ->
  entry_data config_entry !! CONF_MODEL = Some model ->
  stored hass config_entry KEY_DEVICE device ->
  features_of_model model = Some features ->
  (exists item, item ∈ NUMBER_TYPES /\ selected features item = true) ->
  (forall coordinator, ~ stored hass config_entry KEY_COORDINATOR coordinator) ->
  async_setup_entry hass config_entry = Raise (KeyError KEY_COORDINATOR).
Proof.
  intros Hflow Hmodel Hdevice Hfeatures Hsel Hmissing.
  rewrite (async_setup_entry_device _ _ _ _ Hflow Hmodel Hdevice), Hfeatures.
  destruct Hdevice as (domain & store & Hdomain & Hstore & _).
  rewrite (append_entities_no_coordinator _ _ _ _ _ _ _ _ Hdomain Hstore); trivial.
  destruct (store !! KEY_COORDINATOR) as [c|] eqn:Hk; [|reflexivity].
  destruct (Hmissing c). now exists domain, store.
Qed.

Lemma _extract_value_from_attribute_Raise (state : DeviceState) (attribute : string)
    (exc : PyExc) :
  _extract_value_from_attribute state attribute = Raise exc ->
  exc = AttributeError attribute.
Proof.
  unfold _extract_value_from_attribute, getattr_state.
  destruct (String.eqb attribute "is_on").
  - rewrite bind_Ok. discriminate.
  - destruct (attributes state !! attribute) as [value|].
    + rewrite bind_Ok. now destruct value.
    + rewrite bind_Raise. now intros [= <-].
Qed.

Lemma append_entities_unreadable hass config_entry (device coordinator : obj_ref) features
    (items : list (Z * XiaomiMiioNumberDescription)) (entities : list XiaomiNumberEntity) :
  stored hass config_entry KEY_COORDINATOR coordinator ->
  (exists item, item ∈ items /\ selected features item = true
                /\ ~ readable hass coordinator (snd item)) ->
  exists item, item ∈ items /\ selected features item = true
    /\ append_entities hass config_entry device features items entities
        = Raise (AttributeError (key (snd item))).
Proof.
  intros (domain & store & Hdomain & Hstore & Hk). revert entities.
  induction items as [|[feature description] items IH];
    intros entities (bad & Hin & Hsel & Hbad).
  - now apply elem_of_nil in Hin.
  - cbn [append_entities].
    destruct (Z.land feature features =? 0) eqn:Hbit.
    + apply elem_of_cons in Hin as [->|Hin].
      { unfold selected in Hsel. cbn [fst] in Hsel. now rewrite Hbit in Hsel. }
      destruct (IH entities) as (item & Hitem & Hitemsel & Hrun).
      { now exists bad. }
      exists item. split; [now apply list_elem_of_further | now split].
    + rewrite (getitem_Some _ _ _ Hdomain), bind_Ok.
      rewrite (getitem_Some _ _ _ Hstore), bind_Ok.
      rewrite (getitem_Some _ _ _ Hk), bind_Ok.
      unfold __init__.
      destruct (_extract_value_from_attribute _ _) as [value|exc] eqn:Hvalue.
      * rewrite !bind_Ok.
        apply elem_of_cons in Hin as [->|Hin].
        { destruct Hbad. now exists value. }
        destruct (IH (entities ++ [control config_entry device coordinator description value]))
          as (item & Hitem & Hitemsel & Hrun).
        { now exists bad. }
        exists item. split; [now apply list_elem_of_further | now split].
      * rewrite bind_Raise.
        apply _extract_value_from_attribute_Raise in Hvalue. subst exc.
        exists (feature, description).
        split; [apply list_elem_of_here|]. split; [|reflexivity].
        unfold selected. cbn [fst]. now rewrite Hbit.
Qed.

(** X6: setup is all or nothing: if the status object of the coordinator
    lacks the attribute of one selected descriptor, setup raises
    [AttributeError] for the key of a selected descriptor and hands
    over no control at all, not even those built before. *)
Theorem setup_unreadable_attribute hass config_entry model
    (device coordinator : obj_ref) features :
  entry_ready hass config_entry model device coordinator ->
  features_of_model model = Some features ->
  (exists item, item ∈ NUMBER_TYPES /\ selected features item = true
                /\ ~ readable hass coordinator (snd item)) ->
  (exists item, item ∈ NUMBER_TYPES /\ selected features item = true
     /\ async_setup_entry hass config_entry = Raise (AttributeError (key (snd item))))
  /\ controls_of (async_setup_entry hass config_entry) = [].
Proof.
  intros Hready Hfeatures Hbad.
  rewrite (async_setup_entry_ready _ _ _ _ _ Hready), Hfeatures.
  destruct Hready as (_ & _ & _ & Hcoordinator).
  destruct (append_entities_unreadable _ _ device _ _ _ [] Hcoordinator Hbad)
    as (item & Hin & Hsel & Hrun).
  rewrite Hrun, bind_Raise. split; [|reflexivity].
  now exists item.
Qed.

(** ** What a normal return of setup hands over *)

Lemma append_entities_Ok_inv hass config_entry (device : obj_ref) features
    (items : list (Z * XiaomiMiioNumberDescription))
    (entities result : list XiaomiNumberEntity) :
  append_entities hass config_entry device features items entities = Ok result ->
  exists new,
    result = entities ++ new
    /\ Forall2 (built hass config_entry device)
               (List.filter (selected features) items) new.
Proof.
  revert entities.
  induction items as [|[feature description] items IH]; intros entities Hrun.
  - cbn in Hrun. injection Hrun as <-. exists []. split; [now rewrite app_nil_r|constructor].
  - cbn [append_entities List.filter] in *. unfold selected at 1. cbn [fst].
    destruct (Z.land feature features =? 0) eqn:Hbit; cbn [negb].
    + now apply IH.
    + destruct (getitem (hass_data hass) DOMAIN) as [domain|] eqn:Hdomain; [|discriminate].
      rewrite bind_Ok in Hrun.
      destruct (getitem domain (entry_id config_entry)) as [store|] eqn:Hstore;
        [|discriminate].
      rewrite bind_Ok in Hrun.
      destruct (getitem store KEY_COORDINATOR) as [c|] eqn:Hk; [|discriminate].
      rewrite bind_Ok in Hrun. unfold __init__ in Hrun.
      destruct (_extract_value_from_attribute _ _) as [v|] eqn:Hvalue; [|discriminate].
      rewrite !bind_Ok in Hrun.
      destruct (IH _ Hrun) as (new & -> & Hnew).
      exists (control config_entry device c description v :: new).
      split; [now rewrite <- app_assoc|].
      constructor; [|assumption].
      exists c, v. split; [|now split].
      exists domain, store. now repeat split; apply getitem_Ok_inv.
Qed.

Lemma async_setup_entry_Ok_inv hass config_entry (calls : list (list XiaomiNumberEntity)) :
  async_setup_entry hass config_entry = Ok calls ->
  calls = []
  \/ exists model device features new,
       entry_data config_entry !! CONF_MODEL = Some model
       /\ stored hass config_entry KEY_DEVICE device
       /\ features_of_model model = Some features
       /\ calls = [new]
       /\ Forall2 (built hass config_entry device)
                  (List.filter (selected features) NUMBER_TYPES) new.
Proof.
  unfold async_setup_entry. intros Hrun.
  destruct (getitem (entry_data config_entry) CONF_FLOW_TYPE) as [flow_type|];
    [|discriminate].
  rewrite bind_Ok in Hrun.
  destruct (negb (flow_type =? CONF_DEVICE)%string).
  { injection Hrun as <-. now left. }
  destruct (getitem (entry_data config_entry) CONF_MODEL) as [model|] eqn:Hmodel;
    [|discriminate].
  rewrite bind_Ok in Hrun.
  destruct (getitem (hass_data hass) DOMAIN) as [domain|] eqn:Hdomain; [|discriminate].
  rewrite bind_Ok in Hrun.
  destruct (getitem domain (entry_id config_entry)) as [store|] eqn:Hstore; [|discriminate].
  rewrite bind_Ok in Hrun.
  destruct (getitem store KEY_DEVICE) as [device|] eqn:Hdevice; [|discriminate].
  rewrite bind_Ok in Hrun.
  destruct (features_of_model model) as [features|] eqn:Hfeatures.
  - destruct (append_entities _ _ _ _ _ _) as [entities|] eqn:Hloop; [|discriminate].
    rewrite bind_Ok in Hrun. injection Hrun as <-.
    destruct (append_entities_Ok_inv _ _ _ _ _ _ _ Hloop) as (new & -> & Hnew).
    right. exists model, device, features, new.
    split; [now apply getitem_Ok_inv|].
    split; [exists domain, store; now repeat split; apply getitem_Ok_inv|].
    now repeat split.
  - injection Hrun as <-. now left.
Qed.

Lemma Forall2_elem_r {A B : Type} (P : A -> B -> Prop) (l : list A) (k : list B) (y : B) :
  Forall2 P l k -> y ∈ k -> exists x, x ∈ l /\ P x y.
Proof.
  induction 1 as [|x y' l k HP _ IH]; intros Hy.
  - now apply elem_of_nil in Hy.
  - apply elem_of_cons in Hy as [->|Hy].
    + exists x. split; [apply list_elem_of_here | assumption].
    + destruct (IH Hy) as (x' & Hx' & HP'). exists x'.
      split; [now apply list_elem_of_further | assumption].
Qed.

Lemma elem_of_List_filter {A : Type} (p : A -> bool) (l : list A) (x : A) :
  x ∈ List.filter p l <-> x ∈ l /\ p x = true.
Proof. rewrite !list_elem_of_In. apply filter_In. Qed.

(** The rows of the registry: key, name, bounds, step, whether the
    control works with the device off, and setter name. *)
Lemma NUMBER_TYPES_rows (item : Z * XiaomiMiioNumberDescription) :
  item ∈ NUMBER_TYPES ->
  (key (snd item), name (snd item),
   (min_value (snd item), max_value (snd item), step (snd item)),
   available_with_device_off (snd item), method (snd item)) ∈
    [("motor_speed", Some "Motor Speed", (VInt 200, VInt 2000, VInt 10),
      false, Some "async_set_motor_speed");
     ("favorite_level", Some "Favorite Level", (VInt 0, VInt 17, VInt 1),
      true, Some "async_set_favorite_level");
     ("fan_level", Some "Fan Level", (VInt 1, VInt 3, VInt 1),
      true, Some "async_set_fan_level");
     ("volume", Some "Volume", (VInt 0, VInt 100, VInt 1),
      true, Some "async_set_volume")].
Proof.
  intros Hin. apply dict_display_elem in Hin. cbn [map snd] in Hin.
  repeat (apply elem_of_cons in Hin as [->|Hin]; [set_solver|]).
  now apply elem_of_nil in Hin.
Qed.

(** X7: every control that a normal return of setup hands over belongs
    to this entry, carries the device handle and the coordinator that
    [hass.data] holds for the entry, is named after the entry's title
    and the descriptor's name, mirrors what the coordinator's status
    holds under the descriptor's key, and has the key, name, bounds and
    step of one of the four rows of the registry. *)
Theorem constructed_control_fields hass config_entry
    (calls : list (list XiaomiNumberEntity)) (e : XiaomiNumberEntity) :
  async_setup_entry hass config_entry = Ok calls ->
  e ∈ concat calls ->
  _entry e = config_entry
  /\ stored hass config_entry KEY_DEVICE (_device e)
  /\ stored hass config_entry KEY_COORDINATOR (coordinator e)
  /\ _name e = title config_entry +:+ " " +:+ fstr (name (entity_description e))
  /\ _extract_value_from_attribute
       (data (coordinators hass (coordinator e))) (key (entity_description e))
     = Ok (_attr_value e)
  /\ (key (entity_description e), name (entity_description e),
      (_attr_min_value e, _attr_max_value e, _attr_step e)) ∈
       [("motor_speed", Some "Motor Speed", (VInt 200, VInt 2000, VInt 10));
        ("favorite_level", Some "Favorite Level", (VInt 0, VInt 17, VInt 1));
        ("fan_level", Some "Fan Level", (VInt 1, VInt 3, VInt 1));
        ("volume", Some "Volume", (VInt 0, VInt 100, VInt 1))].
Proof.
  intros Hrun He.
  destruct (async_setup_entry_Ok_inv _ _ _ Hrun)
    as [->|(model & device & features & new & _ & Hdevice & _ & -> & Hnew)].
  { now apply elem_of_nil in He. }
  cbn [concat] in He. rewrite app_nil_r in He.
  destruct (Forall2_elem_r _ _ _ _ Hnew He) as (item & Hitem & c & v & Hc & Hv & ->).
  apply elem_of_List_filter in Hitem as [Hitem _].
  cbn [control _entry _device coordinator _name entity_description _attr_value
       _attr_min_value _attr_max_value _attr_step].
  repeat (split; [easy|]).
  apply NUMBER_TYPES_rows in Hitem.
  repeat (apply elem_of_cons in Hitem as [Hitem|Hitem];
          [injection Hitem as -> -> -> -> -> _ _; set_solver|]).
  now apply elem_of_nil in Hitem.
Qed.

(** ** The values of a dict display *)

Lemma dict_setitem_values {V : Type} (k : Z) (v : V) (d : list (Z * V)) :
  map snd (dict_setitem k v d) ⊆+ v :: map snd d.
Proof.
  induction d as [|[k' v'] d IH]; cbn [dict_setitem map snd]; [reflexivity|].
  destruct (k' =? k); cbn [map snd].
  - apply submseteq_skip. now apply submseteq_cons.
  - etransitivity; [apply submseteq_skip, IH | apply submseteq_swap].
Qed.

Lemma dict_display_values {V : Type} (items : list (Z * V)) :
  map snd (dict_display items) ⊆+ map snd items.
Proof.
  unfold dict_display.
  assert (Hgen : forall d,
             map snd (fold_left (fun d kv => dict_setitem (fst kv) (snd kv) d) items d)
             ⊆+ map snd items ++ map snd d).
  { induction items as [|kv items IH]; intros d; cbn [fold_left map app]; [reflexivity|].
    etransitivity; [apply IH|].
    etransitivity; [apply submseteq_skips_l, dict_setitem_values|].
    apply Permutation_submseteq. symmetry. apply Permutation_middle. }
  specialize (Hgen []). now rewrite app_nil_r in Hgen.
Qed.

Lemma submseteq_map {A B : Type} (f : A -> B) (l k : list A) :
  l ⊆+ k -> map f l ⊆+ map f k.
Proof.
  induction 1; cbn [map].
  - reflexivity.
  - now apply submseteq_skip.
  - apply submseteq_swap.
  - now apply submseteq_cons.
  - etransitivity; eassumption.
Qed.

Lemma submseteq_NoDup {A : Type} (l k : list A) : l ⊆+ k -> NoDup k -> NoDup l.
Proof.
  intros Hlk Hk. apply submseteq_Permutation in Hlk as [rest Hperm].
  rewrite Hperm in Hk. now apply NoDup_app in Hk as [Hl _].
Qed.

(** The registry has at most four items, with pairwise distinct
    descriptor keys. *)
Lemma NUMBER_TYPES_length : (length NUMBER_TYPES <= 4)%nat.
Proof.
  rewrite <- (length_map snd). unfold NUMBER_TYPES.
  etransitivity; [apply submseteq_length, dict_display_values | reflexivity].
Qed.

Lemma NUMBER_TYPES_keys_NoDup :
  NoDup (map (fun item => key (snd item)) NUMBER_TYPES).
Proof.
  rewrite <- (map_map snd key).
  eapply submseteq_NoDup; [apply submseteq_map, dict_display_values|].
  cbn [map snd key].
  unfold ATTR_MOTOR_SPEED, ATTR_FAVORITE_LEVEL, ATTR_FAN_LEVEL, ATTR_VOLUME.
  repeat (apply NoDup_cons; split;
          [intros Hin;
           repeat (apply elem_of_cons in Hin as [Hin|Hin]; [discriminate|]);
           now apply elem_of_nil in Hin|]).
  apply NoDup_nil_2.
Qed.

Lemma NoDup_map_filter {A B : Type} (f : A -> B) (p : A -> bool) (l : list A) :
  NoDup (map f l) -> NoDup (map f (List.filter p l)).
Proof.
  induction l as [|x l IH]; cbn [map List.filter]; [trivial|].
  intros Hnodup. apply NoDup_cons in Hnodup as [Hx Hl].
  destruct (p x); cbn [map]; [|now apply IH].
  apply NoDup_cons. split; [|now apply IH].
  intros Hin. apply Hx.
  apply list_elem_of_In, in_map_iff in Hin as (y & <- & Hy).
  apply list_elem_of_In, in_map_iff. exists y. split; [reflexivity|].
  now apply filter_In in Hy as [Hy _].
Qed.

(** A map whose images are pairwise distinct wherever the images of
    another map are. *)
Lemma NoDup_map_finer {A B C : Type} (f : A -> B) (g : A -> C) (l : list A) :
  (forall x y, x ∈ l -> y ∈ l -> g x = g y -> f x = f y) ->
  NoDup (map f l) -> NoDup (map g l).
Proof.
  induction l as [|x l IH]; cbn [map]; intros Hfiner Hnodup; [constructor|].
  apply NoDup_cons in Hnodup as [Hx Hl].
  apply NoDup_cons. split.
  - intros Hin. apply Hx.
    apply list_elem_of_In, in_map_iff in Hin as (y & Hxy & Hy).
    apply list_elem_of_In, in_map_iff. exists y. split; [|assumption].
    apply Hfiner; [| |assumption].
    + now apply list_elem_of_further, list_elem_of_In.
    + apply list_elem_of_here.
  - apply IH; [|assumption].
    intros y z Hy Hz. apply Hfiner; now apply list_elem_of_further.
Qed.

Lemma built_unique_ids hass config_entry (device : obj_ref)
    (items : list (Z * XiaomiMiioNumberDescription)) (new : list XiaomiNumberEntity) :
  Forall2 (built hass config_entry device) items new ->
  map _unique_id new
  = map (fun item => key (snd item) +:+ "_" +:+ unique_id config_entry) items.
Proof.
  induction 1 as [|item e items new (c & v & _ & _ & ->) _ IH]; cbn [map]; [reflexivity|].
  now rewrite IH.
Qed.

(** X8: a normal return of setup calls [async_add_entities] at most
    once, hands over at most four controls, no two of them with the
    same unique identifier, and all of them with the same device handle
    and the same coordinator. *)
Theorem setup_result_shape hass config_entry (calls : list (list XiaomiNumberEntity)) :
  async_setup_entry hass config_entry = Ok calls ->
  (length calls <= 1)%nat
  /\ (length (concat calls) <= 4)%nat
  /\ NoDup (map _unique_id (concat calls))
  /\ (forall e1 e2, e1 ∈ concat calls -> e2 ∈ concat calls ->
                    _device e1 = _device e2 /\ coordinator e1 = coordinator e2).
Proof.
  intros Hrun.
  destruct (async_setup_entry_Ok_inv _ _ _ Hrun)
    as [->|(model & device & features & new & _ & _ & _ & -> & Hnew)].
  { cbn [concat length map]. split; [lia|]. split; [lia|].
    split; [apply NoDup_nil_2|].
    intros e1 e2 He1. now apply elem_of_nil in He1. }
  cbn [concat length]. rewrite app_nil_r.
  split; [lia|]. split; [|split].
  - rewrite <- (Forall2_length _ _ _ Hnew).
    etransitivity; [apply filter_length_le | apply NUMBER_TYPES_length].
  - rewrite (built_unique_ids _ _ _ _ _ Hnew).
    apply (NoDup_map_finer (fun item => key (snd item))).
    + intros x y Hx Hy Hxy.
      apply elem_of_List_filter in Hx as [Hx _], Hy as [Hy _].
      now apply unique_id_inj in Hxy as [Hkey _]; try apply NUMBER_TYPES_key.
    + apply NoDup_map_filter, NUMBER_TYPES_keys_NoDup.
  - intros e1 e2 He1 He2.
    destruct (Forall2_elem_r _ _ _ _ Hnew He1) as (i1 & _ & c1 & v1 & Hc1 & _ & ->).
    destruct (Forall2_elem_r _ _ _ _ Hnew He2) as (i2 & _ & c2 & v2 & Hc2 & _ & ->).
    cbn [control _device coordinator]. split; [reflexivity|].
    exact (stored_functional _ _ _ _ _ Hc1 Hc2).
Qed.

(** ** The setters *)

(** X9: setting a value on a control of the registry sends one command
    to the control's device, and the descriptor's key decides which
    setter of the device client is called and under which message a
    failure is logged: [set_speed] for motor speed,
    [set_favorite_level] for favorite level, [set_fan_level] for fan
    level (logged under the message of favorite level) and
    [set_volume] for volume. *)
Theorem setter_routing self value hass :
  (exists feature, (feature, entity_description self) ∈ NUMBER_TYPES) ->
  exists call self' hass',
    async_set_value self value hass = Ok (self', hass')
    /\ device_calls hass' = device_calls hass ++ [call]
    /\ call_device call = _device self
    /\ call_arg call = value
    /\ (key (entity_description self), call_func call, call_mask_error call) ∈
         [("motor_speed", set_speed,
           "Setting the target motor speed of the miio device failed.");
          ("favorite_level", set_favorite_level,
           "Setting the favorite level of the miio device failed.");
          ("fan_level", set_fan_level,
           "Setting the favorite level of the miio device failed.");
          ("volume", set_volume,
           "Setting the volume of the miio device failed.")].
Proof.
  intros [feature Hin]. apply NUMBER_TYPES_rows in Hin. cbn [snd] in Hin.
  unfold async_set_value.
  repeat (apply elem_of_cons in Hin as [Hin|Hin];
          [injection Hin as Hkey _ _ _ _ _ Hmethod; rewrite Hkey, Hmethod;
           cbn [getattr_method String.eqb Ascii.eqb Bool.eqb]; rewrite bind_Ok;
           unfold async_set_motor_speed, async_set_favorite_level,
             async_set_fan_level, async_set_volume, _try_command;
           destruct (device_reply _ _); eexists _, _, _;
           (split; [reflexivity|]); cbn; repeat (split; [reflexivity|]);
           set_solver|]).
  now apply elem_of_nil in Hin.
Qed.

(** X10: neither setting a value nor handling a coordinator update
    changes anything of a control but its mirrored value, and neither
    touches [hass.data] or the coordinators.  Setting a value sends
    exactly one command, with that value, and writes the state at most
    once; handling an update sends no command and writes the state
    exactly once, with the value it mirrors. *)
Theorem entity_methods_frame self value hass self' hass' :
  (async_set_value self value hass = Ok (self', hass') ->
   same_identity self self'
   /\ hass_data hass' = hass_data hass
   /\ coordinators hass' = coordinators hass
   /\ (exists call,
         device_calls hass' = device_calls hass ++ [call]
         /\ call_device call = _device self
         /\ call_arg call = value)
   /\ (_attr_value self' = value
         /\ state_writes hass' = state_writes hass ++ [(_unique_id self, value)]
       \/ self' = self /\ state_writes hass' = state_writes hass))
  /\ (_handle_coordinator_update self hass = Ok (self', hass') ->
      same_identity self self'
      /\ hass_data hass' = hass_data hass
      /\ coordinators hass' = coordinators hass
      /\ device_calls hass' = device_calls hass
      /\ state_writes hass'
         = state_writes hass ++ [(_unique_id self, _attr_value self')]).
Proof.
  split.
  - unfold async_set_value, getattr_method.
    destruct (method (entity_description self)) as [n|]; [|discriminate].
    repeat match goal with
           | |- context [if String.eqb n ?s then _ else _] => destruct (String.eqb n s)
           end;
      try (intros ?; discriminate);
      rewrite bind_Ok;
      unfold async_set_motor_speed, async_set_favorite_level, async_set_fan_level,
        async_set_volume, _try_command;
      destruct (device_reply _ _); intros [= <- <-]; cbn;
      (split; [now repeat split|]); (split; [reflexivity|]); (split; [reflexivity|]);
      (split; [now eexists|]); auto.
  - unfold _handle_coordinator_update.
    destruct (_extract_value_from_attribute _ _) as [v|]; [|discriminate].
    rewrite bind_Ok. intros [= <- <-]. cbn. now repeat split.
Qed.

(** X11: handling a coordinator update a second time, with nothing
    polled in between, leaves the control as it is and writes the same
    state again. *)
Theorem refresh_idempotent self hass self1 hass1 :
  _handle_coordinator_update self hass = Ok (self1, hass1) ->
  _handle_coordinator_update self1 hass1
  = Ok (self1, with_write hass1 (_unique_id self1) (_attr_value self1)).
Proof.
  unfold _handle_coordinator_update.
  destruct (_extract_value_from_attribute _ _) as [v|] eqn:Hvalue; [|discriminate].
  rewrite bind_Ok. intros [= <- <-]. cbn. now rewrite Hvalue.
Qed.

(** ** Availability over the registry *)

(** X12: of the controls of the registry only motor speed follows the
    device's power: it is available when the base class says so and
    the device is on, while favorite level, fan level and volume are
    available exactly when the base class says so. *)
Theorem only_motor_speed_follows_power self hass :
  (exists feature, (feature, entity_description self) ∈ NUMBER_TYPES) ->
  (key (entity_description self) <> "motor_speed" ->
   available self hass = super_available self hass)
  /\ (key (entity_description self) = "motor_speed" ->
      available self hass
      = super_available self hass
        && is_on (data (coordinators hass (coordinator self)))).
Proof.
  intros [feature Hin]. apply NUMBER_TYPES_rows in Hin. cbn [snd] in Hin.
  unfold available.
  repeat (apply elem_of_cons in Hin as [Hin|Hin];
          [injection Hin as Hkey _ _ _ _ Hoff _; rewrite Hkey, Hoff;
           split; intros Hk; try discriminate; try (now destruct Hk);
           destruct (super_available self hass), (is_on _); reflexivity|]).
  now apply elem_of_nil in Hin.
Qed.

End Further.

(** * The properties on the concrete configuration *)

Import Sample.
(** C1 on four models: one in the table and in the MIIO family, one in
    the MIIO family only, one in the MIOT family only, one unknown. *)
Lemma features_first_match_sample :
  features_of_model "zhimi.airpurifier.mc1" = Some 23
  /\ features_of_model "zhimi.airpurifier.v2" = Some 855
  /\ features_of_model "zhimi.airpurifier.ma4" = Some 4125
  /\ features_of_model "zhimi.unknown" = None.
Proof.
  split; [|split; [|split]].
  - destruct (features_first_match "zhimi.airpurifier.mc1") as (Htable & _).
    apply Htable. run.
  - destruct (features_first_match "zhimi.airpurifier.v2") as (_ & Hmiio & _).
    apply Hmiio; [run | run_decide].
  - destruct (features_first_match "zhimi.airpurifier.ma4") as (_ & _ & Hmiot & _).
    apply Hmiot; [run | run_decide | run_decide].
  - destruct (features_first_match "zhimi.unknown") as (_ & _ & _ & Hnone & _).
    apply Hnone; [run | run_decide | run_decide].
Defined.

(** C9 on a gateway entry for which [hass.data] holds nothing. *)
Lemma other_flow_type_returns_early_sample :
  async_setup_entry hass gateway = Ok []
  /\ controls_of (async_setup_entry hass gateway) = [].
Proof.
  apply (other_flow_type_returns_early hass gateway "gateway"); run.
Defined.

(** C6 on a device entry with an unknown model. *)
Lemma unknown_model_no_controls_no_error_sample :
  async_setup_entry hass unknown = Ok []
  /\ controls_of (async_setup_entry hass unknown) = [].
Proof.
  apply (unknown_model_no_controls_no_error hass unknown "zhimi.unknown" "device" 1%nat);
    [run | run | run_stored | run
     | run_decide | run_decide].
Defined.

(** C2 on a MIOT purifier (favorite level and fan level) and on the
    purifier 2S (favorite level only). *)
Lemma controls_match_feature_bits_sample :
  map entity_description (controls_of (async_setup_entry hass purifier_3))
    = map snd (List.filter (selected 4125) NUMBER_TYPES)
  /\ map key (map entity_description (controls_of (async_setup_entry hass purifier_3)))
    = ["favorite_level"; "fan_level"]
  /\ exists e,
      controls_of (async_setup_entry hass purifier_2s) = [e]
      /\ key (entity_description e) = "favorite_level"
      /\ _attr_min_value e = VInt 0
      /\ _attr_max_value e = VInt 17
      /\ _attr_step e = VInt 1.
Proof.
  assert (Hready3 : entry_ready hass purifier_3 "zhimi.airpurifier.ma4" 3%nat 4%nat)
    by run_ready.
  assert (Hready2 : entry_ready hass purifier_2s "zhimi.airpurifier.mc1" 1%nat 2%nat)
    by run_ready.
  assert (Hmask3 : features_of_model "zhimi.airpurifier.ma4" = Some 4125) by run.
  assert (Hmask2 : features_of_model "zhimi.airpurifier.mc1" = Some 23) by run.
  assert (Hread3 : forall item, item ∈ NUMBER_TYPES -> selected 4125 item = true ->
                                readable hass 4%nat (snd item)) by run_readable.
  assert (Hread2 : forall item, item ∈ NUMBER_TYPES -> selected 23 item = true ->
                                readable hass 2%nat (snd item)) by run_readable.
  destruct (controls_match_feature_bits _ _ _ _ _ _ Hready3 Hmask3 Hread3)
    as (_ & Hmatch & _).
  destruct (controls_match_feature_bits _ _ _ _ _ _ Hready2 Hmask2 Hread2)
    as (_ & _ & _ & Hfavorite).
  split; [exact Hmatch|]. split; [reflexivity|].
  apply Hfavorite; run.
Defined.

(** C8 on the favorite-level controls of two entries. *)
Lemma unique_ids_do_not_collide_sample :
  _unique_id (favorite_level purifier_2s 1%nat 2%nat) = "favorite_level_aa:bb"
  /\ _unique_id (favorite_level purifier_3 3%nat 4%nat) = "favorite_level_cc:dd"
  /\ _unique_id (favorite_level purifier_2s 1%nat 2%nat)
       <> _unique_id (favorite_level purifier_3 3%nat 4%nat).
Proof.
  assert (Hrun1 : async_setup_entry hass purifier_2s = Ok (calls_of purifier_2s)) by run.
  assert (Hrun2 : async_setup_entry hass purifier_3 = Ok (calls_of purifier_3)) by run.
  assert (He1 : favorite_level purifier_2s 1%nat 2%nat ∈ concat (calls_of purifier_2s))
    by run.
  assert (He2 : favorite_level purifier_3 3%nat 4%nat ∈ concat (calls_of purifier_3))
    by run.
  destruct (unique_ids_do_not_collide _ _ _ _ _ _ _ _ Hrun1 He1 Hrun2 He2)
    as (Hid1 & Hid2 & Hdiffer).
  split; [exact Hid1|]. split; [exact Hid2|].
  apply Hdiffer. run.
Defined.

(** C7 on an attribute that holds an enumeration member and on one
    that holds an integer. *)
Lemma mirrored_value_projection_sample :
  _extract_value_from_attribute status "fan_level" = Ok (VInt 2)
  /\ _extract_value_from_attribute status "volume" = Ok (VInt 50).
Proof.
  destruct (mirrored_value_projection status "fan_level") as (Henum & _).
  destruct (mirrored_value_projection status "volume") as (_ & Hplain & _).
  split; [apply (Henum "FanLevel" "Two") | apply Hplain]; reflexivity.
Defined.

(** C5 with the device off: motor speed is unavailable, favorite level
    follows the base class. *)
Lemma available_follows_device_power_sample :
  available motor_speed hass = false
  /\ available (favorite_level purifier_2s 1%nat 2%nat) hass = true.
Proof.
  split.
  - apply (available_follows_device_power motor_speed hass); reflexivity.
  - destruct (available_follows_device_power (favorite_level purifier_2s 1%nat 2%nat) hass)
      as (_ & Hbase).
    rewrite Hbase; [reflexivity | now right].
Defined.

(** C3 on a value the device accepts and on one it refuses. *)
Lemma set_value_mirrors_on_success_only_sample :
  (exists self' hass',
      async_set_value (favorite_level purifier_2s 1%nat 2%nat) (VInt 12) hass
        = Ok (self', hass')
      /\ _attr_value self' = VInt 12
      /\ state_writes hass' = [("favorite_level_aa:bb", VInt 12)])
  /\ (exists hass',
      async_set_value (favorite_level purifier_2s 1%nat 2%nat) (VInt (-1)) hass
        = Ok (favorite_level purifier_2s 1%nat 2%nat, hass')
      /\ state_writes hass' = []).
Proof.
  split.
  - destruct (set_value_mirrors_on_success_only
                (favorite_level purifier_2s 1%nat 2%nat) (VInt 12) hass)
      as (call & _ & Harg & Hsuccess & _).
    { exists 16. run. }
    destruct Hsuccess as (self' & hass' & Hrun & Hvalue & Hwrites & _).
    { cbn. now rewrite Harg. }
    exists self', hass'. split; [exact Hrun|]. split; [exact Hvalue | exact Hwrites].
  - destruct (set_value_mirrors_on_success_only
                (favorite_level purifier_2s 1%nat 2%nat) (VInt (-1)) hass)
      as (call & _ & Harg & _ & Hfailure).
    { exists 16. run. }
    destruct Hfailure as (hass' & Hrun & Hwrites & _).
    { cbn. now rewrite Harg. }
    exists hass'. split; [exact Hrun | exact Hwrites].
Defined.

(** C10 on a motor speed above the maximum and off the step grid, and
    on a favorite level above the maximum. *)
Lemma set_value_forwards_value_unchecked_sample :
  _attr_max_value motor_speed = VInt 2000
  /\ _attr_step motor_speed = VInt 10
  /\ (exists call self' hass',
        async_set_value motor_speed (VInt 5005) hass = Ok (self', hass')
        /\ device_calls hass' = [call]
        /\ call_arg call = VInt 5005
        /\ call_func call = set_speed
        /\ _attr_value self' = VInt 5005)
  /\ _attr_max_value (favorite_level purifier_2s 1%nat 2%nat) = VInt 17
  /\ (exists call self' hass',
        async_set_value (favorite_level purifier_2s 1%nat 2%nat) (VInt 99) hass
          = Ok (self', hass')
        /\ device_calls hass' = [call]
        /\ call_arg call = VInt 99
        /\ call_func call = set_favorite_level
        /\ _attr_value self' = VInt 99).
Proof.
  split; [reflexivity|]. split; [reflexivity|]. split; [|split; [reflexivity|]].
  - destruct (set_value_forwards_value_unchecked motor_speed (VInt 5005) hass)
      as (call & self' & hass' & Hrun & Hcalls & Harg & _ & Hfunc & Hsuccess & _ & _).
    { exists 8192. run. }
    exists call, self', hass'.
    split; [exact Hrun|]. split; [exact Hcalls|]. split; [exact Harg|].
    split; [now apply Hfunc|].
    apply Hsuccess. cbn. now rewrite Harg.
  - destruct (set_value_forwards_value_unchecked
                (favorite_level purifier_2s 1%nat 2%nat) (VInt 99) hass)
      as (call & self' & hass' & Hrun & Hcalls & Harg & _ & _ & Hsuccess & _ & Hrow).
    { exists 16. run. }
    exists call, self', hass'.
    split; [exact Hrun|]. split; [exact Hcalls|]. split; [exact Harg|].
    split; [|apply Hsuccess; cbn; now rewrite Harg].
    cbn [favorite_level control entity_description key method] in Hrow.
    repeat (apply elem_of_cons in Hrow as [Hrow|Hrow];
            [first [discriminate Hrow | injection Hrow as Hfunc; exact Hfunc]|]).
    now apply elem_of_nil in Hrow.
Defined.

(** C4 on a control that mirrors 99 while the coordinator holds 10. *)
Lemma coordinator_update_overwrites_sample :
  exists self' hass',
    _handle_coordinator_update
      (set_attr_value (favorite_level purifier_2s 1%nat 2%nat) (VInt 99)) hass
      = Ok (self', hass')
    /\ _attr_value self' = VInt 10
    /\ state_writes hass' = [("favorite_level_aa:bb", VInt 10)].
Proof.
  destruct (coordinator_update_overwrites
              (set_attr_value (favorite_level purifier_2s 1%nat 2%nat) (VInt 99))
              hass (VInt 10))
    as ((self' & hass' & Hrun & Hvalue & Hwrites & _) & _); [reflexivity|].
  exists self', hass'. split; [exact Hrun|]. split; [exact Hvalue | exact Hwrites].
Defined.

(** X2 on the purifier 2S, which the MIIO family lists as well. *)
Lemma table_models_resolve_sample :
  features_of_model "zhimi.airpurifier.mc1" = Some 23.
Proof.
  apply table_models_resolve; [run_decide | run].
Defined.

(** X4 on a humidifier without numeric controls, with no coordinator in
    [hass.data]. *)
Lemma setup_no_feature_selected_sample :
  async_setup_entry hass_no_coordinator humidifier_ca1 = Ok [[]].
Proof.
  apply (setup_no_feature_selected hass_no_coordinator humidifier_ca1
           "zhimi.humidifier.ca1" 1%nat 3085);
    [run | run | run_stored | run | run_items].
Defined.

(** X5 on the purifier 2S with no coordinator in [hass.data]. *)
Lemma setup_missing_coordinator_sample :
  async_setup_entry hass_no_coordinator purifier_2s = Raise (KeyError KEY_COORDINATOR).
Proof.
  apply (setup_missing_coordinator hass_no_coordinator purifier_2s
           "zhimi.airpurifier.mc1" 1%nat 23);
    [run | run | run_stored | run | | run_not_stored].
  exists (16, entity_description (favorite_level purifier_2s 1%nat 2%nat)).
  split; run.
Defined.

(** X6 on a MIOT purifier whose status has no attribute. *)
Lemma setup_unreadable_attribute_sample :
  (exists item, item ∈ NUMBER_TYPES /\ selected 4125 item = true
     /\ async_setup_entry hass_bare_status purifier_3
        = Raise (AttributeError (key (snd item))))
  /\ controls_of (async_setup_entry hass_bare_status purifier_3) = [].
Proof.
  apply (setup_unreadable_attribute hass_bare_status purifier_3
           "zhimi.airpurifier.ma4" 3%nat 4%nat 4125); [run_ready | run |].
  exists (16, entity_description (favorite_level purifier_3 3%nat 4%nat)).
  split; [run|]. split; [run|].
  intros [value Hvalue]. vm_compute in Hvalue. discriminate Hvalue.
Defined.

(** X7 on the favorite-level control of the MIOT purifier. *)
Lemma constructed_control_fields_sample :
  _name (favorite_level purifier_3 3%nat 4%nat) = "Bedroom Favorite Level"
  /\ stored hass purifier_3 KEY_DEVICE 3%nat
  /\ stored hass purifier_3 KEY_COORDINATOR 4%nat.
Proof.
  assert (Hrun : async_setup_entry hass purifier_3 = Ok (calls_of purifier_3)) by run.
  assert (He : favorite_level purifier_3 3%nat 4%nat ∈ concat (calls_of purifier_3))
    by run.
  destruct (constructed_control_fields _ _ _ _ Hrun He)
    as (_ & Hdevice & Hcoordinator & Hname & _).
  split; [exact Hname|]. split; [exact Hdevice | exact Hcoordinator].
Defined.

(** X8 on the MIOT purifier. *)
Lemma setup_result_shape_sample :
  NoDup (map _unique_id (concat (calls_of purifier_3)))
  /\ map _unique_id (concat (calls_of purifier_3))
     = ["favorite_level_cc:dd"; "fan_level_cc:dd"].
Proof.
  assert (Hrun : async_setup_entry hass purifier_3 = Ok (calls_of purifier_3)) by run.
  destruct (setup_result_shape _ _ _ Hrun) as (_ & _ & Hnodup & _).
  split; [exact Hnodup | reflexivity].
Defined.

(** X9 on the motor-speed control. *)
Lemma setter_routing_sample :
  exists call self' hass',
    async_set_value motor_speed (VInt 600) hass = Ok (self', hass')
    /\ device_calls hass' = [call]
    /\ call_func call = set_speed.
Proof.
  destruct (setter_routing motor_speed (VInt 600) hass)
    as (call & self' & hass' & Hrun & Hcalls & _ & _ & Hrow).
  { exists 8192. run. }
  exists call, self', hass'. split; [exact Hrun|]. split; [exact Hcalls|].
  cbn [motor_speed control entity_description key] in Hrow.
  repeat (apply elem_of_cons in Hrow as [Hrow|Hrow];
          [first [discriminate Hrow | injection Hrow as Hfunc _; exact Hfunc]|]).
  now apply elem_of_nil in Hrow.
Defined.

(** X11 on a control that mirrors 99 while the coordinator holds 10. *)
Lemma refresh_idempotent_sample :
  exists self1 hass1,
    _handle_coordinator_update
      (set_attr_value (favorite_level purifier_2s 1%nat 2%nat) (VInt 99)) hass
      = Ok (self1, hass1)
    /\ _handle_coordinator_update self1 hass1
       = Ok (self1, with_write hass1 "favorite_level_aa:bb" (VInt 10)).
Proof.
  eexists _, _. split; [reflexivity|].
  apply (refresh_idempotent
           (set_attr_value (favorite_level purifier_2s 1%nat 2%nat) (VInt 99)) hass).
  reflexivity.
Defined.

(** X12 with the device off and the base class reporting available. *)
Lemma only_motor_speed_follows_power_sample :
  available motor_speed hass = false
  /\ available (favorite_level purifier_2s 1%nat 2%nat) hass = true.
Proof.
  destruct (only_motor_speed_follows_power motor_speed hass) as (_ & Hmotor).
  { exists 8192. run. }
  destruct (only_motor_speed_follows_power (favorite_level purifier_2s 1%nat 2%nat) hass)
    as (Hother & _).
  { exists 16. run. }
  split.
  - rewrite Hmotor; reflexivity.
  - rewrite Hother; [reflexivity | discriminate].
Defined.

(** X1 on an entry without data and on a device entry whose model is
    missing. *)
Lemma setup_lookup_errors_sample :
  async_setup_entry hass
    {| entry_data := ∅; entry_id := "entry-1"; title := "Bedroom"; unique_id := "aa:bb" |}
  = Raise (KeyError CONF_FLOW_TYPE)
  /\ async_setup_entry hass
       {| entry_data := {[ "config_flow_device" := "device" ]};
          entry_id := "entry-1"; title := "Bedroom"; unique_id := "aa:bb" |}
     = Raise (KeyError CONF_MODEL).
Proof.
  split.
  - apply setup_lookup_errors. run.
  - apply setup_lookup_errors; run.
Defined.

(** X3 on an unknown model. *)
Lemma unresolved_models_sample : features_of_model "zhimi.unknown" = None.
Proof.
  apply unresolved_models. split; [run_decide|]. split; run_decide.
Defined.

(** X10 on a motor speed the device accepts. *)
Lemma entity_methods_frame_sample :
  exists self' hass',
    async_set_value motor_speed (VInt 600) hass = Ok (self', hass')
    /\ same_identity motor_speed self'
    /\ coordinators hass' = coordinators hass.
Proof.
  eexists _, _. split; [reflexivity|].
  destruct (entity_methods_frame motor_speed (VInt 600) hass
              (set_attr_value motor_speed (VInt 600))
              (with_write
                 (with_call hass
                    {| call_mask_error :=
                         "Setting the target motor speed of the miio device failed.";
                       call_device := 1%nat;
                       call_func := set_speed;
                       call_arg := VInt 600 |})
                 "motor_speed_aa:bb" (VInt 600)))
    as [Hset _].
  destruct (Hset eq_refl) as (Hsame & _ & Hcoordinators & _).
  split; [exact Hsame | exact Hcoordinators].
Defined.
